(** * Swap orchestration: base handler and HydraDX handler

    A shallow embedding of
    - [packages/extension-base/src/services/swap-service/handler/base-handler.ts]
      (class [SwapBaseHandler]) and
    - the HydraDX provider handler (class [HydradxHandler]),
    followed by the properties the specification states about them.

    Conventions of the embedding.
    - Amounts are decimal integer strings in the smallest unit of an asset;
      the code reads them with [new BigNumber(s)] and then only adds,
      subtracts and compares.  An amount is carried as the integer it
      denotes ([Z]); [plus]/[minus] are [+]/[-], [gte]/[lte]/[gt] are
      [>=?]/[<=?]/[>?].  Strings that do not denote a number are outside
      the embedding.  The fee of a top-up is the one amount computed on
      doubles; its arithmetic is written out under Numbers.
    - An optional or nullable field is an [option]; [x || d] on such a field
      is [default d x].
    - An [async] function is a computation over an explicit [World] (the
      state of the chains, the network and the clock): it returns the new
      world and either a value ([Resolved]) or a rejection ([Rejected]).
      Whatever a call did to the world before it was rejected stays done. *)

From Stdlib Require Import ZArith String List Bool Lia.
From Stdlib Require Import QArith_base DecimalString.
From stdpp Require Import base option list strings.
Import ListNotations.

Local Open Scope string_scope.
Local Open Scope Z_scope.
Local Open Scope list_scope.

(** ** Data model *)

Definition Amount := Z.

Module ChainAsset.
(** [_ChainAsset] of the chain list: the fields the handlers read. *)
Record t := mk {
  slug : string;
  originChain : string;
  symbol : string;
  decimals : option Z;
  minAmount : option Amount
}.
End ChainAsset.
Abbreviation _ChainAsset := ChainAsset.t.

Module ChainInfo.
Record t := mk {
  slug : string;
  name : string
}.
End ChainInfo.
Abbreviation _ChainInfo := ChainInfo.t.

Module AmountData.
Record t := mk {
  value : Amount;
  decimals : Z;
  symbol : string
}.
End AmountData.

Module SwapPair.
Record t := mk {
  slug : string;
  from : string;
  to : string
}.
End SwapPair.

Module SwapRequest.
Record t := mk {
  address : string;
  pair : SwapPair.t;
  fromAmount : Amount
}.
End SwapRequest.

Inductive SwapFeeType := NETWORK_FEE | PLATFORM_FEE | WALLET_FEE.

Module SwapFeeComponent.
Record t := mk {
  feeType : SwapFeeType;
  amount : option Amount;
  tokenSlug : string
}.
End SwapFeeComponent.

Module SwapFeeInfo.
Record t := mk {
  feeComponent : list SwapFeeComponent.t;
  defaultFeeToken : string;
  feeOptions : list string
}.
End SwapFeeInfo.

Inductive SwapProviderId := HYDRADX_MAINNET | HYDRADX_TESTNET.

Module SwapProvider.
Record t := mk {
  id : SwapProviderId;
  name : string
}.
End SwapProvider.

Module SwapQuote.
Record t := mk {
  pair : SwapPair.t;
  fromAmount : Amount;
  toAmount : Amount;
  rate : Q;
  provider : SwapProvider.t;
  aliveUntil : Z;
  minSwap : option Amount;
  feeInfo : SwapFeeInfo.t;
  route : list string
}.
End SwapQuote.

(** Step tags: [YieldStepType.XCM], [SwapStepType.SWAP] and the other tags of
    the step taxonomy. *)
Inductive StepType := DEFAULT | XCM | TOKEN_APPROVAL | SET_FEE_TOKEN | SWAP.

Global Instance StepType_eq_dec : EqDecision StepType.
Proof. solve_decision. Defined.

Module XcmMetadata.
Record t := mk {
  sendingValue : Amount;
  originTokenInfo : _ChainAsset;
  destinationTokenInfo : _ChainAsset
}.
End XcmMetadata.

Module BaseStepDetail.
(** What a step generator returns.  The declared type has no [id], but a
    value of it may carry one (every [CommonStepDetail] is a
    [BaseStepDetail]); [id] is that own property, when the value has it. *)
Record t := mk {
  id : option nat;
  metadata : option XcmMetadata.t;
  name : string;
  type : StepType
}.
End BaseStepDetail.

Module CommonStepDetail.
(** A step of a path: [{ id, ...BaseStepDetail }]. *)
Record t := mk {
  id : nat;
  metadata : option XcmMetadata.t;
  name : string;
  type : StepType
}.
End CommonStepDetail.

Module OptimalSwapPath.
Record t := mk {
  totalFee : list SwapFeeInfo.t;
  steps : list CommonStepDetail.t
}.
End OptimalSwapPath.

Module OptimalSwapPathParams.
Record t := mk {
  request : SwapRequest.t;
  selectedQuote : option SwapQuote.t
}.
End OptimalSwapPathParams.

Module ValidateSwapProcessParams.
Record t := mk {
  address : string;
  process : OptimalSwapPath.t;
  selectedQuote : option SwapQuote.t;
  recipient : option string
}.
End ValidateSwapProcessParams.

Module RuntimeDispatchInfo.
(** The fee query's answer after [toPrimitive()]: [partialFee] is the fee
    in the smallest unit, an integer, held as a number or (past 52 bits) as
    its decimal string. *)
Record t := mk {
  partialFee : Z
}.
End RuntimeDispatchInfo.

(** A connection handle of the chain service, named by its chain. *)
Inductive _SubstrateApi := SubstrateApiOf (chain : string).

Module CreateXcmExtrinsicProps.
Record t := mk {
  originTokenInfo : _ChainAsset;
  destinationTokenInfo : _ChainAsset;
  sendingValue : Amount;
  recipient : string;
  chainInfoMap : list (string * _ChainInfo);
  substrateApi : _SubstrateApi
}.
End CreateXcmExtrinsicProps.

(** [new TradeRouter(poolService)], over the connection it was built on. *)
Inductive TradeRouter := new_TradeRouter (poolService : _SubstrateApi).

(** ** Errors *)

Inductive BasicTxErrorType := INTERNAL_ERROR | NOT_ENOUGH_BALANCE.

Inductive SwapErrorType :=
  | ERROR_FETCHING_QUOTE
  | UNKNOWN
  | ASSET_NOT_SUPPORTED
  | QUOTE_TIMEOUT
  | SWAP_EXCEED_ALLOWANCE
  | SWAP_NOT_ENOUGH_BALANCE
  | INVALID_RECIPIENT
  | AMOUNT_CANNOT_BE_ZERO.

(** [TransactionError] takes an error type of either family and an optional
    message. *)
Inductive TransactionErrorType :=
  | BasicTx (e : BasicTxErrorType)
  | SwapTx (e : SwapErrorType).

Module TransactionError.
Record t := mk {
  errorType : TransactionErrorType;
  message : option string
}.
End TransactionError.

Definition new_TransactionError (e : TransactionErrorType) : TransactionError.t :=
  TransactionError.mk e None.

Definition new_TransactionError_msg (e : TransactionErrorType) (m : string)
  : TransactionError.t :=
  TransactionError.mk e (Some m).

Module SwapError.
Record t := mk {
  errorType : SwapErrorType;
  message : option string
}.
End SwapError.

Definition new_SwapError (e : SwapErrorType) : SwapError.t := SwapError.mk e None.

Module HydradxPreValidationMetadata.
Record t := mk {
  chain : _ChainInfo;
  maxSwap : AmountData.t
}.
End HydradxPreValidationMetadata.

Module SwapEarlyValidation.
Record t := mk {
  error : option SwapErrorType;
  metadata : option HydradxPreValidationMetadata.t
}.
End SwapEarlyValidation.

(** ** Asynchronous computations *)

Inductive Completion (A : Type) : Type :=
  | Resolved (a : A)
  | Rejected.
Arguments Resolved {A} a.
Arguments Rejected {A}.

(** ** Numbers

    The one computation of the handlers that is not on [BigNumber]s is
    [Math.round(partialFee * 1.2).toString()], on IEEE 754 doubles.  A finite
    double is [m * 2^e] with [m] of at most 53 bits; the operations below work
    on the magnitude, as the pair [(m, e)], and round to nearest, ties to
    even.  The exponent is not bounded here: the results are those of the
    code as long as they stay finite, that is below [2^1024]. *)

(** [n / 2^k] rounded to the nearest integer, ties to the even one
    ([0 <= n], [0 < k]). *)
Definition roundHalfEven (n k : Z) : Z :=
  let q := Z.shiftr n k in
  let r := n - Z.shiftl q k in
  let half := Z.shiftl 1 (k - 1) in
  if (half <? r) || ((r =? half) && Z.odd q) then q + 1 else q.

(** The double nearest to [n * 2^e], for [0 <= n]: what reading an integer
    as a number, or an arithmetic operation, keeps of an exact result. *)
Definition toDouble (n e : Z) : Z * Z :=
  let k := Z.log2 n - 52 in
  if 0 <? k then (roundHalfEven n k, e + k) else (n, e).

(** The double written [1.2]: [5404319552844595 * 2^-52], a little below
    6/5. *)
Definition double_1_2 : Z * Z := (5404319552844595, -52).

(** [x * y] on magnitudes. *)
Definition doubleMul (x y : Z * Z) : Z * Z := toDouble (x.1 * y.1) (x.2 + y.2).

(** [Math.round] of the double of magnitude [x], negative or not: the
    nearest integer, halves toward positive infinity. *)
Definition Math_round (negative : bool) (x : Z * Z) : Z :=
  let m := if negative then - x.1 else x.1 in
  if 0 <=? x.2 then m * 2 ^ x.2
  else (2 * m + 2 ^ (- x.2)) / 2 ^ (1 - x.2).

(** The multiple of [10^j] nearest to [r] among those that read back as the
    double [r], if there is one: they are the [c * 10^j] with [2 * c * 10^j]
    between [lo2] and [hi2], the doubled midpoints to the neighbouring
    doubles, which count when [closed]. *)
Definition decimalAt (r lo2 hi2 : Z) (closed : bool) (j : Z) : option Z :=
  let unit := 2 * 10 ^ j in
  let cmin := if closed then (lo2 + unit - 1) / unit else lo2 / unit + 1 in
  let cmax := if closed then hi2 / unit else (hi2 - 1) / unit in
  if cmin <=? cmax
  then Some (Z.max cmin (Z.min cmax ((2 * r + 10 ^ j) / unit)) * 10 ^ j)
  else None.

(** The search for the decimal with the most trailing zeros, that is with
    the fewest digits. *)
Fixpoint shortestDecimal (fuel : nat) (r lo2 hi2 : Z) (closed : bool) (j : Z) (best : Z)
  : Z :=
  match fuel with
  | O => best
  | S fuel' =>
      match decimalAt r lo2 hi2 closed (j + 1) with
      | Some better => shortestDecimal fuel' r lo2 hi2 closed (j + 1) better
      | None => best
      end
  end.

(** [x.toString()] for an integral double [x], as the amount the string
    denotes.  Up to [2^53] the digits are those of [x]; above, they are the
    fewest digits that still read back as [x], padded with zeros (in
    exponent notation from [1e21] on, which denotes the same amount). *)
Definition Number_toString (x : Z) : Z :=
  let r := Z.abs x in
  if r <=? 2 ^ 53 then x
  else
    let e := Z.log2 r - 52 in
    let m := Z.shiftr r e in
    let below := if m =? 2 ^ 52 then 2 ^ (e - 1) else 2 ^ e in
    Z.sgn x * shortestDecimal (Z.to_nat (Z.log2 r)) r (2 * r - below) (2 * r + 2 ^ e)
                (Z.even m) 0 r.

Section SwapService.

Context {World : Type}.

Definition Async (A : Type) : Type := World -> World * Completion A.

Definition resolve {A} (a : A) : Async A := fun w => (w, Resolved a).

Definition reject {A} : Async A := fun w => (w, Rejected).

(** [const x = await p; k x] *)
Definition await {A B} (p : Async A) (k : A -> Async B) : Async B :=
  fun w =>
    match p w with
    | (w', Resolved a) => k a w'
    | (w', Rejected) => (w', Rejected)
    end.

(** [try { body } catch (e) { handler }] *)
Definition try_catch {A} (body handler : Async A) : Async A :=
  fun w =>
    match body w with
    | (w', Resolved a) => (w', Resolved a)
    | (w', Rejected) => handler w'
    end.

Notation "x <- p ;; k" := (await p (fun x => k))
  (at level 100, p at next level, right associativity).

(** ** Collaborators *)

(** The chain service: registry look-ups are synchronous and total, as
    their types declare; enabling a chain and waiting for a connection are
    asynchronous. *)
Record ChainService := {
  getAssetBySlug : string -> _ChainAsset;
  getChainInfoByKey : string -> _ChainInfo;
  getChainInfoMap : list (string * _ChainInfo);
  (** [getChainStateByKey(chain).active] *)
  getChainStateActive : string -> World -> bool;
  enableChain : string -> Async unit;
  (** [getSubstrateApi(chain).isReady] *)
  getSubstrateApiIsReady : string -> Async _SubstrateApi
}.

Record BalanceService := {
  getTokenFreeBalance : string -> string -> string -> Async AmountData.t
}.

Record SwapBaseHandler := {
  providerSlug : SwapProviderId;
  providerName : string;
  chainService : ChainService;
  balanceService : BalanceService
}.

(** What the two handlers import from modules of the repository that are not
    in the listing ([swap-service/utils], [chain-service/utils], [utils],
    [koni/api/xcm]) and from libraries ([i18next], [@polkadot/util-crypto],
    [@subwallet/chain-list], the runtime's clock).  They are parameters of
    the development. *)
Class SwapEnv := {
  (* swap-service/utils *)
  DEFAULT_SWAP_FIRST_STEP : CommonStepDetail.t;
  MOCK_SWAP_FEE : SwapFeeInfo.t;
  getSwapAlternativeAsset : SwapPair.t -> option string;
  calculateSwapRate : Amount -> Amount -> _ChainAsset -> _ChainAsset -> Completion Q;
  getEarlyHydradxValidationError :
    SwapErrorType -> option HydradxPreValidationMetadata.t -> SwapError.t;
  SWAP_QUOTE_TIMEOUT_MAP : SwapProviderId -> option Z;
  SWAP_QUOTE_TIMEOUT_MAP_default : Z;
  (* chain-service/utils *)
  _getAssetDecimals : _ChainAsset -> Z;
  _getTokenMinAmount : _ChainAsset -> Amount;
  _getTokenOnChainAssetId : _ChainAsset -> string;
  _getChainNativeTokenSlug : _ChainInfo -> string;
  _isNativeToken : _ChainAsset -> bool;
  _isChainEvmCompatible : _ChainInfo -> bool;
  (* utils *)
  formatNumber : Amount -> Z -> string;
  (* koni/api/xcm and the extrinsic it builds *)
  SubmittableExtrinsic : Type;
  createXcmExtrinsic : CreateXcmExtrinsicProps.t -> Async SubmittableExtrinsic;
  paymentInfo : SubmittableExtrinsic -> string -> Async RuntimeDispatchInfo.t;
  (* libraries *)
  t : string -> list (string * string) -> string;
  isEthereumAddress : string -> bool;
  COMMON_CHAIN_SLUGS_HYDRADX : string;
  COMMON_CHAIN_SLUGS_HYDRADX_TESTNET : string;
  Date_now : World -> Z
}.

Context {env : SwapEnv}.

(** ** SwapBaseHandler *)

Definition GenSwapStepFunc : Type :=
  SwapBaseHandler -> OptimalSwapPathParams.t ->
  Async (option (BaseStepDetail.t * SwapFeeInfo.t)).

(** [{ id: result.steps.length, ...step[0] }]: the spread comes last, so an
    [id] that the step carries itself replaces the one set from the length. *)
Definition withId (id : nat) (step : BaseStepDetail.t) : CommonStepDetail.t :=
  CommonStepDetail.mk (default id (BaseStepDetail.id step))
    (BaseStepDetail.metadata step) (BaseStepDetail.name step) (BaseStepDetail.type step).

(** The body of [if (step) { ... }]: the two [push]es on [result]. *)
Definition pushStep (result : OptimalSwapPath.t)
    (step : BaseStepDetail.t * SwapFeeInfo.t) : OptimalSwapPath.t :=
  let steps := OptimalSwapPath.steps result in
  OptimalSwapPath.mk
    (OptimalSwapPath.totalFee result ++ [step.2])
    (steps ++ [withId (length steps) step.1]).

(** The [for] loop inside the [try]: [result] is updated in place, so when a
    generator is rejected the [catch] returns [result] as it stands. *)
Fixpoint genStepLoop (this : SwapBaseHandler) (params : OptimalSwapPathParams.t)
    (genStepFuncList : list GenSwapStepFunc) (result : OptimalSwapPath.t)
    (w : World) : World * OptimalSwapPath.t :=
  match genStepFuncList with
  | [] => (w, result)
  | genStepFunc :: rest =>
      match genStepFunc this params w with
      | (w', Resolved (Some step)) =>
          genStepLoop this params rest (pushStep result step) w'
      | (w', Resolved None) => genStepLoop this params rest result w'
      | (w', Rejected) => (w', result)
      end
  end.

Definition initialPath : OptimalSwapPath.t :=
  OptimalSwapPath.mk [MOCK_SWAP_FEE] [DEFAULT_SWAP_FIRST_STEP].

Definition generateOptimalProcess (this : SwapBaseHandler)
    (params : OptimalSwapPathParams.t) (genStepFuncList : list GenSwapStepFunc)
  : Async OptimalSwapPath.t :=
  fun w =>
    let (w', result) := genStepLoop this params genStepFuncList initialPath w in
    (w', Resolved result).

(** [formatNumber(x, asset.decimals || 0)] *)
Definition decimalsOrZero (asset : _ChainAsset) : Z :=
  default 0 (ChainAsset.decimals asset).

Definition xcmTemplate : string :=
  "You can only enter a maximum of {{maxValue}} {{symbol}}, which is {{currentValue}} {{symbol}} ({{inputNetworkName}}) and {{maxXCMValue}} {{symbol}} ({{altNetworkName}}). Lower your amount and try again.".

(** The body of the [if] of [validateXcmStep]: the error it returns when the
    alternative asset cannot pay for the transfer. *)
Definition xcmBalanceError (this : SwapBaseHandler) (fromAsset : _ChainAsset)
    (alternativeAssetSlug : string) (bnFromAssetBalance : Amount)
    (alternativeAssetBalance : AmountData.t) (xcmFee altInputTokenMinAmount : Amount)
  : TransactionError.t :=
  let maxBn :=
    bnFromAssetBalance + AmountData.value alternativeAssetBalance
    - xcmFee - altInputTokenMinAmount in
  let maxValue := formatNumber maxBn (decimalsOrZero fromAsset) in
  let altInputTokenInfo := getAssetBySlug (chainService this) alternativeAssetSlug in
  let symbol := ChainAsset.symbol altInputTokenInfo in
  let alternativeChain :=
    getChainInfoByKey (chainService this) (ChainAsset.originChain altInputTokenInfo) in
  let chain := getChainInfoByKey (chainService this) (ChainAsset.originChain fromAsset) in
  let inputNetworkName := ChainInfo.name chain in
  let altNetworkName := ChainInfo.name alternativeChain in
  let currentValue := formatNumber bnFromAssetBalance (decimalsOrZero fromAsset) in
  let bnMaxXCM :=
    AmountData.value alternativeAssetBalance - xcmFee - altInputTokenMinAmount in
  let maxXCMValue := formatNumber bnMaxXCM (decimalsOrZero fromAsset) in
  new_TransactionError_msg (BasicTx NOT_ENOUGH_BALANCE)
    (t xcmTemplate
       [("symbol", symbol); ("maxValue", maxValue);
        ("inputNetworkName", inputNetworkName); ("altNetworkName", altNetworkName);
        ("currentValue", currentValue); ("maxXCMValue", maxXCMValue)]).

Definition validateXcmStep (this : SwapBaseHandler)
    (params : ValidateSwapProcessParams.t) (stepIndex : nat)
  : Async (list TransactionError.t) :=
  match ValidateSwapProcessParams.selectedQuote params with
  | None => reject (* property read on [undefined] *)
  | Some selectedQuote =>
    let bnAmount := SwapQuote.fromAmount selectedQuote in
    let swapPair := SwapQuote.pair selectedQuote in
    match getSwapAlternativeAsset swapPair with
    | None => resolve [new_TransactionError (BasicTx INTERNAL_ERROR)]
    | Some alternativeAssetSlug =>
      let alternativeAsset := getAssetBySlug (chainService this) alternativeAssetSlug in
      let fromAsset := getAssetBySlug (chainService this) (SwapPair.from swapPair) in
      alternativeAssetBalance <-
        getTokenFreeBalance (balanceService this)
          (ValidateSwapProcessParams.address params)
          (ChainAsset.originChain alternativeAsset) alternativeAssetSlug ;;
      fromAssetBalance <-
        getTokenFreeBalance (balanceService this)
          (ValidateSwapProcessParams.address params)
          (ChainAsset.originChain fromAsset) (ChainAsset.slug fromAsset) ;;
      let bnAlternativeAssetBalance := AmountData.value alternativeAssetBalance in
      let bnFromAssetBalance := AmountData.value fromAssetBalance in
      let missingAmount := bnAmount - bnFromAssetBalance in
      match OptimalSwapPath.totalFee (ValidateSwapProcessParams.process params) !! stepIndex with
      | None => reject (* [totalFee[stepIndex]] is [undefined] *)
      | Some stepFee =>
        match SwapFeeInfo.feeComponent stepFee !! 0%nat with
        | None => reject (* [feeComponent[0]] is [undefined] *)
        | Some xcmFeeComponent =>
          let xcmFee := default 0 (SwapFeeComponent.amount xcmFeeComponent) in
          let xcmAmount := missingAmount + xcmFee in
          let altInputTokenMinAmount := default 0 (ChainAsset.minAmount alternativeAsset) in
          if negb (bnAlternativeAssetBalance - xcmAmount >=? altInputTokenMinAmount) then
            resolve [xcmBalanceError this fromAsset alternativeAssetSlug bnFromAssetBalance
                       alternativeAssetBalance xcmFee altInputTokenMinAmount]
          else resolve []
        end
      end
    end
  end.

Definition validateTokenApproveStep (this : SwapBaseHandler)
    (params : ValidateSwapProcessParams.t) (stepIndex : nat)
  : Async (list TransactionError.t) :=
  resolve [].

Definition validateSetFeeTokenStep (this : SwapBaseHandler)
    (params : ValidateSwapProcessParams.t) (stepIndex : nat)
  : Async (list TransactionError.t) :=
  resolve [].

Definition minSwapMessage (parsedMinSwapValue symbol : string) : string :=
  "Insufficient balance. You need more than " +:+ parsedMinSwapValue +:+ " "
  +:+ symbol +:+ " to start swapping. Deposit " +:+ symbol +:+ " and try again.".

Definition exceedMessage (parsedMaxBalanceSwap symbol : string) : string :=
  "Amount too high. Lower your amount below " +:+ parsedMaxBalanceSwap +:+ " "
  +:+ symbol +:+ " and try again".

(** The tail of [validateSwapStep], from the allowance check on. *)
Definition validateSwapStep_allowance (this : SwapBaseHandler)
    (params : ValidateSwapProcessParams.t) (selectedQuote : SwapQuote.t)
    (fromAsset : _ChainAsset) (bnAmount bnFromAssetBalance : Amount)
  : list TransactionError.t :=
  let bnSrcAssetMinAmount := _getTokenMinAmount fromAsset in
  let bnMaxBalanceSwap := bnFromAssetBalance - bnSrcAssetMinAmount in
  if bnAmount >=? bnMaxBalanceSwap then
    let parsedMaxBalanceSwap := formatNumber bnMaxBalanceSwap (_getAssetDecimals fromAsset) in
    [new_TransactionError_msg (SwapTx SWAP_EXCEED_ALLOWANCE)
       (exceedMessage parsedMaxBalanceSwap (ChainAsset.symbol fromAsset))]
  else
    match ValidateSwapProcessParams.recipient params with
    | Some recipient =>
        let toAsset :=
          getAssetBySlug (chainService this) (SwapPair.to (SwapQuote.pair selectedQuote)) in
        let destChainInfo :=
          getChainInfoByKey (chainService this) (ChainAsset.originChain toAsset) in
        let isEvmAddress := isEthereumAddress recipient in
        let isEvmDestChain := _isChainEvmCompatible destChainInfo in
        if (isEvmAddress && negb isEvmDestChain) || (negb isEvmAddress && isEvmDestChain)
        then [new_TransactionError (SwapTx INVALID_RECIPIENT)]
        else []
    | None => []
    end.

Definition validateSwapStep (this : SwapBaseHandler)
    (params : ValidateSwapProcessParams.t) (isXcmOk : bool)
  : Async (list TransactionError.t) :=
  match ValidateSwapProcessParams.selectedQuote params with
  | None => resolve [new_TransactionError (BasicTx INTERNAL_ERROR)]
  | Some selectedQuote => fun w =>
    let currentTimestamp := Date_now w in
    if SwapQuote.aliveUntil selectedQuote <=? currentTimestamp then
      resolve [new_TransactionError (SwapTx QUOTE_TIMEOUT)] w
    else
      let bnAmount := SwapQuote.fromAmount selectedQuote in
      let fromAsset :=
        getAssetBySlug (chainService this) (SwapPair.from (SwapQuote.pair selectedQuote)) in
      (fromAssetBalance <-
         getTokenFreeBalance (balanceService this)
           (ValidateSwapProcessParams.address params)
           (ChainAsset.originChain fromAsset) (ChainAsset.slug fromAsset) ;;
       let bnFromAssetBalance := AmountData.value fromAssetBalance in
       match SwapQuote.minSwap selectedQuote with
       | Some minProtocolSwap =>
           if bnFromAssetBalance <=? minProtocolSwap then
             let parsedMinSwapValue :=
               formatNumber minProtocolSwap (_getAssetDecimals fromAsset) in
             resolve [new_TransactionError_msg (SwapTx SWAP_NOT_ENOUGH_BALANCE)
                        (minSwapMessage parsedMinSwapValue (ChainAsset.symbol fromAsset))]
           else
             resolve (validateSwapStep_allowance this params selectedQuote
                        fromAsset bnAmount bnFromAssetBalance)
       | None =>
           resolve (validateSwapStep_allowance this params selectedQuote
                      fromAsset bnAmount bnFromAssetBalance)
       end) w
  end.

(** ** HydradxHandler *)

Record HydradxHandler := {
  swapBaseHandler : SwapBaseHandler;
  tradeRouter : option TradeRouter;
  isTestnet : bool;
  isReady : bool
}.

(** The constructor: [isReady = false], no trade router yet. *)
Definition new_HydradxHandler (cs : ChainService) (bs : BalanceService)
    (isTestnet : bool) : HydradxHandler :=
  {| swapBaseHandler :=
       {| providerSlug := if isTestnet then HYDRADX_TESTNET else HYDRADX_MAINNET;
          providerName := if isTestnet then "HydraDX Testnet" else "HydraDX";
          chainService := cs;
          balanceService := bs |};
     tradeRouter := None;
     isTestnet := isTestnet;
     isReady := false |}.

Definition chain (this : HydradxHandler) : string :=
  if negb (isTestnet this) then COMMON_CHAIN_SLUGS_HYDRADX
  else COMMON_CHAIN_SLUGS_HYDRADX_TESTNET.

(** [init] enables the chain if it is not active, waits for the connection,
    builds the trade router and sets [isReady]; the handler it resolves to
    is the updated [this]. *)
Definition init (this : HydradxHandler) : Async HydradxHandler :=
  fun w =>
    let cs := chainService (swapBaseHandler this) in
    let active := getChainStateActive cs (chain this) w in
    (_ <- (if negb active then enableChain cs (chain this) else resolve tt) ;;
     substrateApi <- getSubstrateApiIsReady cs (chain this) ;;
     resolve {| swapBaseHandler := swapBaseHandler this;
                tradeRouter := Some (new_TradeRouter substrateApi);
                isTestnet := isTestnet this;
                isReady := true |}) w.

(** [Math.round(xcmFeeInfo.partialFee * 1.2).toString()]: the partial fee is
    read as a double, multiplied by the double [1.2], rounded to an integer
    and printed. *)
Definition inflateFee (partialFee : Z) : Z :=
  Number_toString
    (Math_round (partialFee <? 0)
       (doubleMul (toDouble (Z.abs partialFee) 0) double_1_2)).

(** The step generators are handed to the base handler unbound and called
    there as [genStepFunc.bind(this, params)()], so their [this] is the
    [SwapBaseHandler]; [this.chainService] and [this.balanceService] are its
    public fields. *)
Definition getXcmStep : GenSwapStepFunc := fun this params =>
  let request := OptimalSwapPathParams.request params in
  let bnAmount := SwapRequest.fromAmount request in
  let fromAsset :=
    getAssetBySlug (chainService this) (SwapPair.from (SwapRequest.pair request)) in
  fromAssetBalance <-
    getTokenFreeBalance (balanceService this) (SwapRequest.address request)
      (ChainAsset.originChain fromAsset) (ChainAsset.slug fromAsset) ;;
  let bnFromAssetBalance := AmountData.value fromAssetBalance in
  if negb (bnFromAssetBalance >=? bnAmount) then
    match getSwapAlternativeAsset (SwapRequest.pair request) with
    | Some alternativeAssetSlug =>
      let alternativeAsset := getAssetBySlug (chainService this) alternativeAssetSlug in
      alternativeAssetBalance <-
        getTokenFreeBalance (balanceService this) (SwapRequest.address request)
          (ChainAsset.originChain alternativeAsset) (ChainAsset.slug alternativeAsset) ;;
      let bnAlternativeAssetBalance := AmountData.value alternativeAssetBalance in
      if bnAlternativeAssetBalance >? 0 then
        let alternativeChainInfo :=
          getChainInfoByKey (chainService this) (ChainAsset.originChain alternativeAsset) in
        let step :=
          BaseStepDetail.mk None
            (Some (XcmMetadata.mk bnAmount alternativeAsset fromAsset))
            ("Transfer " +:+ ChainAsset.symbol alternativeAsset +:+ " from "
               +:+ ChainInfo.name alternativeChainInfo)
            XCM in
        xcmOriginSubstrateApi <-
          getSubstrateApiIsReady (chainService this) (ChainAsset.originChain alternativeAsset) ;;
        xcmTransfer <-
          createXcmExtrinsic
            (CreateXcmExtrinsicProps.mk alternativeAsset fromAsset bnAmount
               (SwapRequest.address request) (getChainInfoMap (chainService this))
               xcmOriginSubstrateApi) ;;
        xcmFeeInfo <- paymentInfo xcmTransfer (SwapRequest.address request) ;;
        let fee :=
          SwapFeeInfo.mk
            [SwapFeeComponent.mk NETWORK_FEE
               (Some (inflateFee (RuntimeDispatchInfo.partialFee xcmFeeInfo)))
               (_getChainNativeTokenSlug alternativeChainInfo)]
            (_getChainNativeTokenSlug alternativeChainInfo)
            [_getChainNativeTokenSlug alternativeChainInfo] in
        resolve (Some (step, fee))
      else resolve None
    | None => resolve None
    end
  else resolve None.

Definition getSubmitStep : GenSwapStepFunc := fun this params =>
  match OptimalSwapPathParams.selectedQuote params with
  | Some selectedQuote =>
      let submitStep := BaseStepDetail.mk None None "Swap" SWAP in
      resolve (Some (submitStep, SwapQuote.feeInfo selectedQuote))
  | None => resolve None
  end.

(** [HydradxHandler.generateOptimalProcess]: the base handler's loop over the
    two generators; neither [isReady] nor the trade router is read. *)
Definition Hydradx_generateOptimalProcess (this : HydradxHandler)
    (params : OptimalSwapPathParams.t) : Async OptimalSwapPath.t :=
  generateOptimalProcess (swapBaseHandler this) params [getXcmStep; getSubmitStep].

(** [!x] on an optional value. *)
Definition isUndefined {A} (x : option A) : bool :=
  match x with Some _ => false | None => true end.

(** [!id] on an on-chain asset id: the empty string is falsy. *)
Definition noAssetId (id : string) : bool := String.eqb id EmptyString.

Definition earlyError (e : SwapErrorType) : SwapEarlyValidation.t :=
  SwapEarlyValidation.mk (Some e) None.

Definition validateSwapRequest (this : HydradxHandler) (request : SwapRequest.t)
  : Async SwapEarlyValidation.t :=
  let cs := chainService (swapBaseHandler this) in
  let fromAsset := getAssetBySlug cs (SwapPair.from (SwapRequest.pair request)) in
  let toAsset := getAssetBySlug cs (SwapPair.to (SwapRequest.pair request)) in
  let fromAssetId := _getTokenOnChainAssetId fromAsset in
  let toAssetId := _getTokenOnChainAssetId toAsset in
  if negb (String.eqb (ChainAsset.originChain fromAsset) (chain this)
           && String.eqb (ChainAsset.originChain toAsset) (chain this)) then
    resolve (earlyError ASSET_NOT_SUPPORTED)
  else if noAssetId fromAssetId || noAssetId toAssetId then
    resolve (earlyError UNKNOWN)
  else
    try_catch
      (fromAssetBalance <-
         getTokenFreeBalance (balanceService (swapBaseHandler this))
           (SwapRequest.address request)
           (ChainAsset.originChain fromAsset) (ChainAsset.slug fromAsset) ;;
       let bnAmount := SwapRequest.fromAmount request in
       let bnSrcAssetMinAmount := _getTokenMinAmount fromAsset in
       let bnMaxBalanceSwap := AmountData.value fromAssetBalance - bnSrcAssetMinAmount in
       if bnAmount <=? 0 then resolve (earlyError AMOUNT_CANNOT_BE_ZERO)
       else if bnAmount >=? bnMaxBalanceSwap then resolve (earlyError SWAP_EXCEED_ALLOWANCE)
       else
         resolve
           (SwapEarlyValidation.mk None
              (Some (HydradxPreValidationMetadata.mk
                       (getChainInfoByKey cs (chain this))
                       (AmountData.mk bnMaxBalanceSwap (_getAssetDecimals fromAsset)
                          (ChainAsset.symbol fromAsset))))))
      (resolve (earlyError UNKNOWN)).

(** [HydradxHandler.validateSwapProcess] *)
Definition Hydradx_validateSwapProcess (this : HydradxHandler)
    (params : ValidateSwapProcessParams.t) : Async (list TransactionError.t) :=
  resolve [].

(** [SWAP_QUOTE_TIMEOUT_MAP[this.slug] || SWAP_QUOTE_TIMEOUT_MAP.default] *)
Definition quoteTimeout (slug : SwapProviderId) : Z :=
  match SWAP_QUOTE_TIMEOUT_MAP slug with
  | Some timeout => if timeout =? 0 then SWAP_QUOTE_TIMEOUT_MAP_default else timeout
  | None => SWAP_QUOTE_TIMEOUT_MAP_default
  end.

Definition providerInfo (this : SwapBaseHandler) : SwapProvider.t :=
  SwapProvider.mk (providerSlug this) (providerName this).

(** [HydradxHandler.getSwapQuote].  Inside its [try], only the rate
    computation is a call that may throw; the [catch] answers
    ERROR_FETCHING_QUOTE. *)
Definition getSwapQuote (this : HydradxHandler) (request : SwapRequest.t)
  : Async (SwapQuote.t + SwapError.t) :=
  let cs := chainService (swapBaseHandler this) in
  let fromAsset := getAssetBySlug cs (SwapPair.from (SwapRequest.pair request)) in
  let toAsset := getAssetBySlug cs (SwapPair.to (SwapRequest.pair request)) in
  let fromChain := getChainInfoByKey cs (ChainAsset.originChain fromAsset) in
  let fromChainNativeTokenSlug := _getChainNativeTokenSlug fromChain in
  if negb (isReady this) || isUndefined (tradeRouter this) then
    resolve (inr (new_SwapError UNKNOWN))
  else
    earlyValidation <- validateSwapRequest this request ;;
    match SwapEarlyValidation.error earlyValidation with
    | Some error =>
        resolve (inr (getEarlyHydradxValidationError error
                        (SwapEarlyValidation.metadata earlyValidation)))
    | None => fun w =>
        let defaultFeeToken :=
          if _isNativeToken fromAsset then ChainAsset.slug fromAsset
          else fromChainNativeTokenSlug in
        let toAmount := 100000000000 in
        match calculateSwapRate (SwapRequest.fromAmount request) toAmount fromAsset toAsset with
        | Resolved rate =>
            (w, Resolved (inl
              (SwapQuote.mk (SwapRequest.pair request) (SwapRequest.fromAmount request)
                 toAmount rate (providerInfo (swapBaseHandler this))
                 (Date_now w + quoteTimeout (providerSlug (swapBaseHandler this)))
                 None
                 (SwapFeeInfo.mk [] defaultFeeToken [defaultFeeToken])
                 [])))
        | Rejected => (w, Resolved (inr (new_SwapError ERROR_FETCHING_QUOTE)))
        end
    end.

(** * Vocabulary of the properties *)

(** What the generators of a run hand back, in order: the step and the fee
    of every generator that yielded one, up to the first generator that
    failed. *)
Fixpoint yielded (this : SwapBaseHandler) (params : OptimalSwapPathParams.t)
    (genStepFuncList : list GenSwapStepFunc) (w : World)
  : list (BaseStepDetail.t * SwapFeeInfo.t) :=
  match genStepFuncList with
  | [] => []
  | genStepFunc :: rest =>
      match genStepFunc this params w with
      | (w', Resolved (Some step)) => step :: yielded this params rest w'
      | (w', Resolved None) => yielded this params rest w'
      | (w', Rejected) => []
      end
  end.

(** Yielded steps as they stand in a path from position [index] on: each
    with the [id] it carries itself or else with its position. *)
Fixpoint numbered (index : nat) (steps : list BaseStepDetail.t)
  : list CommonStepDetail.t :=
  match steps with
  | [] => []
  | step :: rest =>
      CommonStepDetail.mk
        (match BaseStepDetail.id step with Some own => own | None => index end)
        (BaseStepDetail.metadata step) (BaseStepDetail.name step)
        (BaseStepDetail.type step)
      :: numbered (S index) rest
  end.

(** A run in which every generator resolves: started in world [w] the
    generators hand back [steps], in this order, and leave world [w']. *)
Inductive allResolve (this : SwapBaseHandler) (params : OptimalSwapPathParams.t)
  : list GenSwapStepFunc -> World ->
    list (BaseStepDetail.t * SwapFeeInfo.t) -> World -> Prop :=
  | allResolve_done w :
      allResolve this params [] w [] w
  | allResolve_push g rest w step w1 steps w' :
      g this params w = (w1, Resolved (Some step)) ->
      allResolve this params rest w1 steps w' ->
      allResolve this params (g :: rest) w (step :: steps) w'
  | allResolve_skip g rest w w1 steps w' :
      g this params w = (w1, Resolved None) ->
      allResolve this params rest w1 steps w' ->
      allResolve this params (g :: rest) w steps w'.


(** The maximum affordable amount as the specification writes it:
    [fromAssetBalance + altAssetBalance - topUpFee - altAssetMinAmount]. *)
Definition maxAffordable (fromAssetBalance altAssetBalance topUpFee altAssetMinAmount : Amount)
  : Amount :=
  fromAssetBalance + altAssetBalance - topUpFee - altAssetMinAmount.

Definition hasError (e : TransactionErrorType) (errs : list TransactionError.t) : Prop :=
  exists err, In err errs /\ TransactionError.errorType err = e.

(** The assets a top-up for [params] moves between. *)
Definition topUpFromAsset (this : SwapBaseHandler) (params : OptimalSwapPathParams.t)
  : _ChainAsset :=
  getAssetBySlug (chainService this)
    (SwapPair.from (SwapRequest.pair (OptimalSwapPathParams.request params))).

Definition topUpAltChain (this : SwapBaseHandler) (altSlug : string) : _ChainInfo :=
  getChainInfoByKey (chainService this)
    (ChainAsset.originChain (getAssetBySlug (chainService this) altSlug)).

(** The step and the fee [getXcmStep] builds. *)
Definition xcmStepOf (this : SwapBaseHandler) (params : OptimalSwapPathParams.t)
    (altSlug : string) : BaseStepDetail.t :=
  let altAsset := getAssetBySlug (chainService this) altSlug in
  BaseStepDetail.mk None
    (Some (XcmMetadata.mk
             (SwapRequest.fromAmount (OptimalSwapPathParams.request params))
             altAsset (topUpFromAsset this params)))
    ("Transfer " +:+ ChainAsset.symbol altAsset +:+ " from "
       +:+ ChainInfo.name (topUpAltChain this altSlug))
    XCM.


(** A partial fee whose inflation is a finite double. *)
Definition finiteFee (info : RuntimeDispatchInfo.t) : Prop :=
  Z.abs (RuntimeDispatchInfo.partialFee info) < 2 ^ 1023.

(** The external calls of a top-up, in the order [getXcmStep] makes them:
    the from-asset balance is short, the alternative asset has a positive
    balance, and the connection, the transfer and its fee query resolve. *)
Inductive topUpResolves (this : SwapBaseHandler) (params : OptimalSwapPathParams.t)
    (altSlug : string) (w w' : World) (info : RuntimeDispatchInfo.t) : Prop :=
  | TopUpResolves (w1 w2 w3 w4 : World) (fromBal altBal : AmountData.t)
      (api : _SubstrateApi) (transfer : SubmittableExtrinsic) :
      let request := OptimalSwapPathParams.request params in
      let fromAsset := topUpFromAsset this params in
      let altAsset := getAssetBySlug (chainService this) altSlug in
      getTokenFreeBalance (balanceService this) (SwapRequest.address request)
        (ChainAsset.originChain fromAsset) (ChainAsset.slug fromAsset) w
      = (w1, Resolved fromBal) ->
      AmountData.value fromBal < SwapRequest.fromAmount request ->
      getTokenFreeBalance (balanceService this) (SwapRequest.address request)
        (ChainAsset.originChain altAsset) (ChainAsset.slug altAsset) w1
      = (w2, Resolved altBal) ->
      0 < AmountData.value altBal ->
      getSubstrateApiIsReady (chainService this) (ChainAsset.originChain altAsset) w2
      = (w3, Resolved api) ->
      createXcmExtrinsic
        (CreateXcmExtrinsicProps.mk altAsset fromAsset (SwapRequest.fromAmount request)
           (SwapRequest.address request) (getChainInfoMap (chainService this)) api)
        w3
      = (w4, Resolved transfer) ->
      paymentInfo transfer (SwapRequest.address request) w4 = (w', Resolved info) ->
      topUpResolves this params altSlug w w' info.

(** The steps [getSubmitStep] contributes at position [id]. *)
Definition submitSteps (params : OptimalSwapPathParams.t) (id : nat)
  : list CommonStepDetail.t :=
  match OptimalSwapPathParams.selectedQuote params with
  | Some _ => [CommonStepDetail.mk id None "Swap" SWAP]
  | None => []
  end.

Definition submitFees (params : OptimalSwapPathParams.t) : list SwapFeeInfo.t :=
  match OptimalSwapPathParams.selectedQuote params with
  | Some quote => [SwapQuote.feeInfo quote]
  | None => []
  end.


(** The quote [getSwapQuote] issues for [request] at clock reading [now],
    given the computed [rate]. *)
Definition issuedQuote (this : HydradxHandler) (request : SwapRequest.t)
    (rate : Q) (now : Z) : SwapQuote.t :=
  let cs := chainService (swapBaseHandler this) in
  let fromAsset := getAssetBySlug cs (SwapPair.from (SwapRequest.pair request)) in
  let defaultFeeToken :=
    if _isNativeToken fromAsset then ChainAsset.slug fromAsset
    else _getChainNativeTokenSlug
           (getChainInfoByKey cs (ChainAsset.originChain fromAsset)) in
  SwapQuote.mk (SwapRequest.pair request) (SwapRequest.fromAmount request)
    100000000000 rate (providerInfo (swapBaseHandler this))
    (now + quoteTimeout (providerSlug (swapBaseHandler this)))
    None (SwapFeeInfo.mk [] defaultFeeToken [defaultFeeToken]) [].

(** What a ready handler answers once the early validation has resolved to
    [validation]. *)
Definition quoteAnswer (this : HydradxHandler) (request : SwapRequest.t)
    (validation : SwapEarlyValidation.t) (now : Z) : SwapQuote.t + SwapError.t :=
  let cs := chainService (swapBaseHandler this) in
  match SwapEarlyValidation.error validation with
  | Some error =>
      inr (getEarlyHydradxValidationError error (SwapEarlyValidation.metadata validation))
  | None =>
      match calculateSwapRate (SwapRequest.fromAmount request) 100000000000
              (getAssetBySlug cs (SwapPair.from (SwapRequest.pair request)))
              (getAssetBySlug cs (SwapPair.to (SwapRequest.pair request))) with
      | Resolved rate => inl (issuedQuote this request rate now)
      | Rejected => inr (new_SwapError ERROR_FETCHING_QUOTE)
      end
  end.

(** Both assets of the request originate on the chain of the handler and
    have an on-chain id. *)
Definition requestSupported (this : HydradxHandler) (request : SwapRequest.t) : Prop :=
  let cs := chainService (swapBaseHandler this) in
  let fromAsset := getAssetBySlug cs (SwapPair.from (SwapRequest.pair request)) in
  let toAsset := getAssetBySlug cs (SwapPair.to (SwapRequest.pair request)) in
  ChainAsset.originChain fromAsset = chain this /\
  ChainAsset.originChain toAsset = chain this /\
  _getTokenOnChainAssetId fromAsset <> EmptyString /\
  _getTokenOnChainAssetId toAsset <> EmptyString.

End SwapService.

(** * The chain service of extension-koni-base

    [packages/extension-koni-base/src/services/chain-service/index.ts].  A JS
    object used as a map from slugs is the association list of its own
    properties in insertion order, with one entry per key: [obj[k] = v]
    replaces the value of an existing key in place and appends a new key at
    the end.  For plain keys ([plainKey] below) this is what the object
    does: [Object.values] enumerates in insertion order and a key that was
    not set reads as [undefined].  It is not for the other keys: an object
    enumerates keys written as array indices first, in ascending order, and
    answers the property names of [Object.prototype] without having been
    given them.  The properties that depend on the order of enumeration or
    on a key being absent are stated for plain keys.  The subjects and the
    logger are left out. *)

Module KoniChainInfo.
Record t := mk {
  slug : string;
  providers : list (string * string)
}.
End KoniChainInfo.

Inductive ConnectionStatus := DISCONNECTED | CONNECTED.

Module KoniChainState.
Record t := mk {
  currentProvider : option string;
  slug : string;
  connectionStatus : ConnectionStatus;
  active : bool
}.
End KoniChainState.

Module KoniChainService.

(** The property names every object inherits from [Object.prototype]. *)
Definition ObjectPrototypeKeys : list string :=
  ["constructor"; "__proto__"; "hasOwnProperty"; "isPrototypeOf";
   "propertyIsEnumerable"; "toLocaleString"; "toString"; "valueOf";
   "__defineGetter__"; "__defineSetter__"; "__lookupGetter__"; "__lookupSetter__"].

Definition isDigit (c : Ascii.ascii) : bool :=
  (48 <=? Z.of_nat (Ascii.nat_of_ascii c)) && (Z.of_nat (Ascii.nat_of_ascii c) <=? 57).

Fixpoint allDigits (key : string) : bool :=
  match key with
  | EmptyString => true
  | String c rest => isDigit c && allDigits rest
  end.

(** A key written with digits only, as every array index is. *)
Definition numericKey (key : string) : bool :=
  negb (String.eqb key EmptyString) && allDigits key.

(** A key that a plain object treats like any other string: it is neither
    numeric nor the name of an inherited property. *)
Definition plainKey (key : string) : bool :=
  negb (numericKey key) && negb (existsb (String.eqb key) ObjectPrototypeKeys).

Definition plainKeys (keys : list string) : Prop := forallb plainKey keys = true.

(** [obj[key]], for an own property. *)
Fixpoint objGet {V} (key : string) (obj : list (string * V)) : option V :=
  match obj with
  | [] => None
  | (k, v) :: rest => if String.eqb k key then Some v else objGet key rest
  end.

(** [obj[key] = value] *)
Fixpoint objSet {V} (key : string) (value : V) (obj : list (string * V))
  : list (string * V) :=
  match obj with
  | [] => [(key, value)]
  | (k, v) :: rest =>
      if String.eqb k key then (k, value) :: rest else (k, v) :: objSet key value rest
  end.

Definition objKeys {V} (obj : list (string * V)) : list string := map fst obj.

Definition objValues {V} (obj : list (string * V)) : list V := map snd obj.

(** The private [dataMap] of the service. *)
Record _DataMap := {
  chainInfoMap : list (string * KoniChainInfo.t);
  chainStateMap : list (string * KoniChainState.t)
}.

(** The state the constructor stores for a chain. *)
Definition initialState (chainInfo : KoniChainInfo.t) : KoniChainState.t :=
  KoniChainState.mk (head (objKeys (KoniChainInfo.providers chainInfo)))
    (KoniChainInfo.slug chainInfo) DISCONNECTED false.

(** The constructor, given the imported [ChainInfoMap]. *)
Definition new_ChainService (ChainInfoMap : list (string * KoniChainInfo.t)) : _DataMap :=
  {| chainInfoMap := ChainInfoMap;
     chainStateMap :=
       fold_left
         (fun states chainInfo =>
            objSet (KoniChainInfo.slug chainInfo) (initialState chainInfo) states)
         (objValues ChainInfoMap) [] |}.

Definition getChainInfoMapByKey (this : _DataMap) (key : string)
  : option KoniChainInfo.t :=
  objGet key (chainInfoMap this).

Definition setActive (state : KoniChainState.t) : KoniChainState.t :=
  KoniChainState.mk (KoniChainState.currentProvider state) (KoniChainState.slug state)
    (KoniChainState.connectionStatus state) true.

(** The [forEach] of [initChainMap]: [chainStateMap[slug].active = true]
    throws on a slug without a state, leaving the earlier ones activated. *)
Fixpoint activateAll (slugs : list string) (states : list (string * KoniChainState.t))
  : list (string * KoniChainState.t) * Completion unit :=
  match slugs with
  | [] => (states, Resolved tt)
  | slug :: rest =>
      match objGet slug states with
      | Some state => activateAll rest (objSet slug (setActive state) states)
      | None => (states, Rejected)
      end
  end.

(** [initChainMap], given the imported [_DEFAULT_NETWORKS]. *)
Definition initChainMap (_DEFAULT_NETWORKS : list string) (this : _DataMap)
  : _DataMap * Completion unit :=
  let (states, outcome) := activateAll _DEFAULT_NETWORKS (chainStateMap this) in
  ({| chainInfoMap := chainInfoMap this; chainStateMap := states |}, outcome).

Definition getChainInfoMap (this : _DataMap) : list (string * KoniChainInfo.t) :=
  chainInfoMap this.

Definition getChainStateMap (this : _DataMap) : list (string * KoniChainState.t) :=
  chainStateMap this.

Definition getActiveChains (this : _DataMap) : list string :=
  map KoniChainState.slug
    (List.filter KoniChainState.active (objValues (chainStateMap this))).

(** Every state is filed under its own slug, once. *)
Definition wellKeyed (states : list (string * KoniChainState.t)) : Prop :=
  NoDup (objKeys states) /\
  forall key state, In (key, state) states -> KoniChainState.slug state = key.

(** Membership in a list of slugs. *)
Definition inSlugs (slugs : list string) (key : string) : bool :=
  existsb (String.eqb key) slugs.

(** An entry of the state map after the slugs of [slugs] were switched on. *)
Definition activated (slugs : list string) (kv : string * KoniChainState.t)
  : string * KoniChainState.t :=
  (kv.1, if inSlugs slugs kv.1 then setActive kv.2 else kv.2).

End KoniChainService.

(** * A concrete world

    A wallet with DOT on HydraDX and on Polkadot.  The world holds the clock
    and the log of the external calls made, most recent first; balances and
    the fee query are parameters of the scenario ([None]: the call is
    rejected). *)

Record TestWorld := {
  now : Z;
  calls : list string
}.

Definition logCall (call : string) (w : TestWorld) : TestWorld :=
  {| now := now w; calls := call :: calls w |}.

Definition hydraDot : _ChainAsset :=
  ChainAsset.mk "hydradx_main-LOCAL-DOT" "hydradx_main" "DOT" None (Some 0).

Definition polkadotDot : _ChainAsset :=
  ChainAsset.mk "polkadot-NATIVE-DOT" "polkadot" "DOT" (Some 10) (Some 0).

Definition hydraHdx : _ChainAsset :=
  ChainAsset.mk "hydradx_main-NATIVE-HDX" "hydradx_main" "HDX" (Some 12) (Some 1000).

Definition testAsset (slug : string) : _ChainAsset :=
  if String.eqb slug "hydradx_main-LOCAL-DOT" then hydraDot
  else if String.eqb slug "polkadot-NATIVE-DOT" then polkadotDot
  else hydraHdx.

Definition testChainService : @ChainService TestWorld :=
  {| getAssetBySlug := testAsset;
     getChainInfoByKey := fun key => ChainInfo.mk key key;
     getChainInfoMap := [];
     getChainStateActive := fun _ _ => true;
     enableChain := fun chain w => (logCall "enableChain" w, Resolved tt);
     getSubstrateApiIsReady :=
       fun chain w => (logCall "isReady" w, Resolved (SubstrateApiOf chain)) |}.

Definition testBalanceService (balances : string -> option Z) : @BalanceService TestWorld :=
  {| getTokenFreeBalance :=
       fun address chain slug w =>
         (logCall ("balance " +:+ slug) w,
          match balances slug with
          | Some value => Resolved (AmountData.mk value 10 "DOT")
          | None => Rejected
          end) |}.

Definition showZ (z : Z) : string := NilZero.string_of_int (Z.to_int z).

Definition testEnv (partialFee : option Z) : @SwapEnv TestWorld :=
  {| DEFAULT_SWAP_FIRST_STEP := CommonStepDetail.mk 0 None "Fill information" DEFAULT;
     MOCK_SWAP_FEE := SwapFeeInfo.mk [] "hydradx_main-NATIVE-HDX" [];
     getSwapAlternativeAsset :=
       fun pair =>
         if String.eqb (SwapPair.from pair) "hydradx_main-LOCAL-DOT"
         then Some "polkadot-NATIVE-DOT" else None;
     calculateSwapRate := fun _ _ _ _ => Resolved (Qmake 1 1);
     getEarlyHydradxValidationError := fun error _ => new_SwapError error;
     SWAP_QUOTE_TIMEOUT_MAP := fun _ => None;
     SWAP_QUOTE_TIMEOUT_MAP_default := 90000;
     _getAssetDecimals := fun asset => default 0 (ChainAsset.decimals asset);
     _getTokenMinAmount := fun asset => default 0 (ChainAsset.minAmount asset);
     _getTokenOnChainAssetId := ChainAsset.slug;
     _getChainNativeTokenSlug := fun chain => ChainInfo.slug chain +:+ "-NATIVE";
     _isNativeToken := fun _ => false;
     _isChainEvmCompatible := fun _ => false;
     formatNumber := fun value decimals => showZ value +:+ "e-" +:+ showZ decimals;
     SubmittableExtrinsic := CreateXcmExtrinsicProps.t;
     createXcmExtrinsic := fun props w => (logCall "createXcmExtrinsic" w, Resolved props);
     paymentInfo :=
       fun _ _ w =>
         (logCall "paymentInfo" w,
          match partialFee with
          | Some fee => Resolved (RuntimeDispatchInfo.mk fee)
          | None => Rejected
          end);
     t := fun template replace =>
            fold_left (fun acc kv => acc +:+ " " +:+ kv.1 +:+ "=" +:+ kv.2) replace template;
     isEthereumAddress := fun address => String.prefix "0x" address;
     COMMON_CHAIN_SLUGS_HYDRADX := "hydradx_main";
     COMMON_CHAIN_SLUGS_HYDRADX_TESTNET := "hydradx_rococo";
     Date_now := now |}.

Definition testHandler (balances : string -> option Z)
  : @HydradxHandler TestWorld :=
  new_HydradxHandler testChainService (testBalanceService balances) false.

Definition dotToHdx : SwapPair.t :=
  SwapPair.mk "DOT-HDX" "hydradx_main-LOCAL-DOT" "hydradx_main-NATIVE-HDX".


Definition testQuote (pair : SwapPair.t) (fromAmount aliveUntil : Z) : SwapQuote.t :=
  SwapQuote.mk pair fromAmount 100000000000 (Qmake 1 1)
    (SwapProvider.mk HYDRADX_MAINNET "HydraDX") aliveUntil None
    (SwapFeeInfo.mk [] "hydradx_main-NATIVE-HDX" ["hydradx_main-NATIVE-HDX"]) [].

(** Balances: [fromBal] DOT on HydraDX, [altBal] DOT on Polkadot. *)
Definition dotBalances (fromBal altBal : Z) (slug : string) : option Z :=
  if String.eqb slug "hydradx_main-LOCAL-DOT" then Some fromBal
  else if String.eqb slug "polkadot-NATIVE-DOT" then Some altBal
  else None.

Definition noBalances (slug : string) : option Z := None.

Definition world0 : TestWorld := {| now := 1000; calls := [] |}.

Definition xcmFeeInfo (fee : Z) : SwapFeeInfo.t :=
  SwapFeeInfo.mk [SwapFeeComponent.mk NETWORK_FEE (Some fee) "polkadot-NATIVE"]
    "polkadot-NATIVE" ["polkadot-NATIVE"].

(** A path [placeholder; XCM; Swap] whose XCM fee is [fee]. *)
Definition testProcess (fee : Z) : OptimalSwapPath.t :=
  OptimalSwapPath.mk
    [SwapFeeInfo.mk [] "hydradx_main-NATIVE-HDX" []; xcmFeeInfo fee;
     SwapFeeInfo.mk [] "hydradx_main-NATIVE-HDX" ["hydradx_main-NATIVE-HDX"]]
    [CommonStepDetail.mk 0 None "Fill information" DEFAULT;
     CommonStepDetail.mk 1 None "Transfer DOT from polkadot" XCM;
     CommonStepDetail.mk 2 None "Swap" SWAP].

Definition testValidation (pair : SwapPair.t) (fromAmount aliveUntil fee : Z)
  : ValidateSwapProcessParams.t :=
  ValidateSwapProcessParams.mk "5Grw" (testProcess fee)
    (Some (testQuote pair fromAmount aliveUntil)) None.

Definition testPlan (fromAmount : Z) : OptimalSwapPathParams.t :=
  OptimalSwapPathParams.mk (SwapRequest.mk "5Grw" dotToHdx fromAmount)
    (Some (testQuote dotToHdx fromAmount 2000)).

(** Inputs and expected values of the runs below. *)

Definition expiredQuote : SwapQuote.t := testQuote dotToHdx 2000000 500.

Definition liveQuote (fromAmount : Z) : SwapQuote.t := testQuote dotToHdx fromAmount 2000.

Definition swapStepOnly : BaseStepDetail.t * SwapFeeInfo.t :=
  (BaseStepDetail.mk None None "Swap" SWAP, SwapQuote.feeInfo (liveQuote 1500000)).

Definition downHandler : @SwapBaseHandler TestWorld := swapBaseHandler (testHandler noBalances).

(** The seed entries followed by the Swap step and the fee of the quote. *)
Definition seedAndSwap : OptimalSwapPath.t :=
  OptimalSwapPath.mk
    [SwapFeeInfo.mk [] "hydradx_main-NATIVE-HDX" [];
     SwapFeeInfo.mk [] "hydradx_main-NATIVE-HDX" ["hydradx_main-NATIVE-HDX"]]
    [CommonStepDetail.mk 0 None "Fill information" DEFAULT;
     CommonStepDetail.mk 1 None "Swap" SWAP].

(** A generator whose step carries an [id] of its own. *)
Definition getNumberedStep : @GenSwapStepFunc TestWorld := fun this params =>
  resolve (Some (BaseStepDetail.mk (Some 7%nat) None "Swap" SWAP,
                 SwapFeeInfo.mk [] "hydradx_main-NATIVE-HDX" [])).

Definition walletHandler (fromBal altBal : Z) : @SwapBaseHandler TestWorld :=
  swapBaseHandler (testHandler (dotBalances fromBal altBal)).

Definition afterXcmQueries : TestWorld :=
  logCall "balance hydradx_main-LOCAL-DOT" (logCall "balance polkadot-NATIVE-DOT" world0).


Definition afterSwapQuery : TestWorld := logCall "balance hydradx_main-LOCAL-DOT" world0.

(** The world after the five external calls of a top-up. *)
Definition afterTopUp : TestWorld :=
  logCall "paymentInfo"
    (logCall "createXcmExtrinsic"
       (logCall "isReady"
          (logCall "balance polkadot-NATIVE-DOT"
             (logCall "balance hydradx_main-LOCAL-DOT" world0)))).

Definition topUpStep : BaseStepDetail.t :=
  BaseStepDetail.mk None (Some (XcmMetadata.mk 1500000 polkadotDot hydraDot))
    "Transfer DOT from polkadot" XCM.

Definition minSwapQuote (fromAmount minSwap : Z) : SwapQuote.t :=
  SwapQuote.mk dotToHdx fromAmount 100000000000 (Qmake 1 1)
    (SwapProvider.mk HYDRADX_MAINNET "HydraDX") 2000 (Some minSwap)
    (SwapFeeInfo.mk [] "hydradx_main-NATIVE-HDX" ["hydradx_main-NATIVE-HDX"]) [].

Definition validationOf (quote : SwapQuote.t) (recipient : option string)
  : ValidateSwapProcessParams.t :=
  ValidateSwapProcessParams.mk "5Grw" (testProcess 10000) (Some quote) recipient.

Definition readyHandler (balances : string -> option Z) : @HydradxHandler TestWorld :=
  {| swapBaseHandler := swapBaseHandler (testHandler balances);
     tradeRouter := Some (new_TradeRouter (SubstrateApiOf "hydradx_main"));
     isTestnet := false;
     isReady := true |}.

Definition smallRequest : SwapRequest.t := SwapRequest.mk "5Grw" dotToHdx 1000.

Definition dotBalance (value : Z) : AmountData.t := AmountData.mk value 10 "DOT".

(** The quote issued for [smallRequest] at clock 1000, default timeout 90000. *)
Definition smallQuote : SwapQuote.t :=
  issuedQuote (env := testEnv None) (readyHandler (dotBalances 1000000 5000))
    smallRequest (Qmake 1 1) 1000.

Definition sufficientPlan : OptimalSwapPathParams.t := testPlan 1000000.

Definition koniChain (slug : string) : KoniChainInfo.t :=
  KoniChainInfo.mk slug [("rpc", "wss://" +:+ slug)].

Definition koniChainMap : list (string * KoniChainInfo.t) :=
  [("polkadot", koniChain "polkadot"); ("kusama", koniChain "kusama");
   ("acala", koniChain "acala")].

Definition lateWorld : TestWorld := {| now := 91000; calls := [] |}.

Definition initialised : @HydradxHandler TestWorld :=
  {| swapBaseHandler := swapBaseHandler (testHandler (dotBalances 1000000 5000));
     tradeRouter := Some (new_TradeRouter (SubstrateApiOf "hydradx_main"));
     isTestnet := false;
     isReady := true |}.



(** * Properties *)

Section Properties.

Context {World : Type} {env : @SwapEnv World}.

(** ** Path assembly *)

Lemma generateOptimalProcess_run (this : SwapBaseHandler)
    (params : OptimalSwapPathParams.t) (gens : list GenSwapStepFunc) (w : World) :
  generateOptimalProcess this params gens w =
  ((genStepLoop this params gens initialPath w).1,
   Resolved (genStepLoop this params gens initialPath w).2).
Proof.
  unfold generateOptimalProcess.
  destruct (genStepLoop this params gens initialPath w); reflexivity.
Qed.

(** The path after [steps] were pushed, one after the other, on a path with
    fees [fees] and steps [done]. *)
Lemma pushStep_numbered (fees : list SwapFeeInfo.t) (done : list CommonStepDetail.t)
    (step : BaseStepDetail.t * SwapFeeInfo.t)
    (steps : list (BaseStepDetail.t * SwapFeeInfo.t)) :
  let pushed := pushStep (OptimalSwapPath.mk fees done) step in
  OptimalSwapPath.mk
    (OptimalSwapPath.totalFee pushed ++ map snd steps)
    (OptimalSwapPath.steps pushed
       ++ numbered (length (OptimalSwapPath.steps pushed)) (map fst steps))
  = OptimalSwapPath.mk (fees ++ map snd (step :: steps))
      (done ++ numbered (length done) (map fst (step :: steps))).
Proof.
  cbn. rewrite <- !app_assoc, length_app, Nat.add_1_r. cbn.
  unfold withId. destruct (BaseStepDetail.id step.1); reflexivity.
Qed.

Lemma genStepLoop_yielded (this : SwapBaseHandler) (params : OptimalSwapPathParams.t)
    (gens : list GenSwapStepFunc) :
  forall (fees : list SwapFeeInfo.t) (done : list CommonStepDetail.t) (w : World),
    (genStepLoop this params gens (OptimalSwapPath.mk fees done) w).2
    = OptimalSwapPath.mk (fees ++ map snd (yielded this params gens w))
        (done ++ numbered (length done) (map fst (yielded this params gens w))).
Proof.
  induction gens as [|g rest IH]; intros fees done w; cbn.
  - rewrite !app_nil_r. reflexivity.
  - destruct (g this params w) as [w' [[step|]|]]; cbn.
    + unfold pushStep at 1. cbn [OptimalSwapPath.totalFee OptimalSwapPath.steps].
      rewrite IH. apply (pushStep_numbered fees done step).
    + apply IH.
    + rewrite !app_nil_r. reflexivity.
Qed.

Lemma map_lookup_Some {A B} (f : A -> B) (l : list A) :
  forall (i : nat) (x : A), l !! i = Some x -> map f l !! i = Some (f x).
Proof.
  induction l as [|first rest IH]; intros [|i] x Hlook; try discriminate.
  - injection Hlook as ->. reflexivity.
  - exact (IH i x Hlook).
Qed.

Lemma numbered_lookup (steps : list BaseStepDetail.t) :
  forall (index i : nat) (step : BaseStepDetail.t),
    steps !! i = Some step ->
    numbered index steps !! i
    = Some (CommonStepDetail.mk (default (index + i)%nat (BaseStepDetail.id step))
              (BaseStepDetail.metadata step) (BaseStepDetail.name step)
              (BaseStepDetail.type step)).
Proof.
  induction steps as [|first rest IH]; intros index [|i] step Hlook;
    try discriminate.
  - injection Hlook as ->. rewrite Nat.add_0_r. cbn.
    destruct (BaseStepDetail.id step); reflexivity.
  - rewrite Nat.add_succ_r. exact (IH (S index) i step Hlook).
Qed.

Lemma numbered_length (steps : list BaseStepDetail.t) :
  forall index : nat, length (numbered index steps) = length steps.
Proof.
  induction steps as [|first rest IH]; intros index; cbn; [ | rewrite IH]; reflexivity.
Qed.

(** C1 (amended). Whatever the step generators do (yield a step, yield
    nothing, or fail), [generateOptimalProcess] resolves to a path whose
    first step is [DEFAULT_SWAP_FIRST_STEP], whose first fee is
    [MOCK_SWAP_FEE], and whose [steps] and [totalFee] have the same length:
    one entry for the placeholder and one for every step the generators
    yielded.  The [i]-th yielded step stands at position [i + 1] with its
    fee at the same position; its [id] is that position, unless the step
    carries an [id] of its own, which it keeps. *)
Theorem generateOptimalProcess_path_shape (this : SwapBaseHandler)
    (params : OptimalSwapPathParams.t) (genStepFuncList : list GenSwapStepFunc)
    (w : World) :
  exists (w' : World) (path : OptimalSwapPath.t),
    generateOptimalProcess this params genStepFuncList w = (w', Resolved path) /\
    OptimalSwapPath.steps path !! 0%nat = Some DEFAULT_SWAP_FIRST_STEP /\
    OptimalSwapPath.totalFee path !! 0%nat = Some MOCK_SWAP_FEE /\
    length (OptimalSwapPath.steps path) = length (OptimalSwapPath.totalFee path) /\
    length (OptimalSwapPath.steps path)
      = S (length (yielded this params genStepFuncList w)) /\
    (forall (i : nat) (yieldedStep : BaseStepDetail.t) (fee : SwapFeeInfo.t),
        yielded this params genStepFuncList w !! i = Some (yieldedStep, fee) ->
        OptimalSwapPath.totalFee path !! S i = Some fee /\
        exists step : CommonStepDetail.t,
          OptimalSwapPath.steps path !! S i = Some step /\
          CommonStepDetail.metadata step = BaseStepDetail.metadata yieldedStep /\
          CommonStepDetail.name step = BaseStepDetail.name yieldedStep /\
          CommonStepDetail.type step = BaseStepDetail.type yieldedStep /\
          CommonStepDetail.id step = default (S i) (BaseStepDetail.id yieldedStep) /\
          (BaseStepDetail.id yieldedStep = None -> CommonStepDetail.id step = S i)).
Proof.
  eexists _, _. split; [apply generateOptimalProcess_run | ].
  unfold initialPath. rewrite genStepLoop_yielded.
  cbn [OptimalSwapPath.steps OptimalSwapPath.totalFee length app].
  set (ys := yielded this params genStepFuncList w).
  split; [reflexivity | ]. split; [reflexivity | ].
  split; [cbn; rewrite numbered_length, !length_map; reflexivity | ].
  split; [cbn; rewrite numbered_length, length_map; reflexivity | ].
  intros i yieldedStep fee Hlook. cbn [lookup list_lookup]. split.
  - exact (map_lookup_Some snd ys i _ Hlook).
  - eexists. split.
    + apply numbered_lookup. exact (map_lookup_Some fst ys i _ Hlook).
    + cbn. repeat split. intros ->. reflexivity.
Qed.

Lemma genStepLoop_allResolve (this : SwapBaseHandler)
    (params : OptimalSwapPathParams.t) (gens : list GenSwapStepFunc)
    (steps : list (BaseStepDetail.t * SwapFeeInfo.t)) (w w' : World) :
  allResolve this params gens w steps w' ->
  forall (more : list GenSwapStepFunc) (fees : list SwapFeeInfo.t)
         (done : list CommonStepDetail.t),
    genStepLoop this params (gens ++ more) (OptimalSwapPath.mk fees done) w
    = genStepLoop this params more
        (OptimalSwapPath.mk (fees ++ map snd steps)
           (done ++ numbered (length done) (map fst steps))) w'.
Proof.
  induction 1 as [ w | g rest w step w1 steps w' Hg _ IH
                   | g rest w w1 steps w' Hg _ IH ]; intros more fees done; cbn.
  - rewrite !app_nil_r. reflexivity.
  - rewrite Hg. unfold pushStep at 1.
    cbn [OptimalSwapPath.totalFee OptimalSwapPath.steps].
    rewrite IH. f_equal. apply (pushStep_numbered fees done step).
  - rewrite Hg. apply IH.
Qed.

(** C2. When the generators before [g] all resolve, handing back [steps],
    and [g] is rejected, [generateOptimalProcess] resolves to the seed
    entries followed by exactly those steps and their fees, in order, which
    is also the path the earlier generators alone produce; the world is the
    one [g] left, so no generator after [g] has run. *)
Theorem generateOptimalProcess_stops_at_failure (this : SwapBaseHandler)
    (params : OptimalSwapPathParams.t)
    (before : list GenSwapStepFunc) (g : GenSwapStepFunc) (after : list GenSwapStepFunc)
    (w w1 w2 : World) (steps : list (BaseStepDetail.t * SwapFeeInfo.t)) :
  allResolve this params before w steps w1 ->
  g this params w1 = (w2, Rejected) ->
  let acc :=
    OptimalSwapPath.mk (MOCK_SWAP_FEE :: map snd steps)
      (DEFAULT_SWAP_FIRST_STEP :: numbered 1 (map fst steps)) in
  generateOptimalProcess this params (before ++ g :: after) w = (w2, Resolved acc) /\
  generateOptimalProcess this params before w = (w1, Resolved acc).
Proof.
  intros Hbefore Hg acc.
  pose proof (genStepLoop_allResolve _ _ _ _ _ _ Hbefore) as Hrun.
  split.
  - rewrite generateOptimalProcess_run. unfold initialPath. rewrite Hrun.
    cbn. rewrite Hg. reflexivity.
  - rewrite generateOptimalProcess_run. unfold initialPath.
    specialize (Hrun [] [MOCK_SWAP_FEE] [DEFAULT_SWAP_FIRST_STEP]).
    rewrite app_nil_r in Hrun. rewrite Hrun. reflexivity.
Qed.

(** ** Cross-chain top-up validation *)

Section XcmStep.

Variables (this : @SwapBaseHandler World) (params : ValidateSwapProcessParams.t)
          (stepIndex : nat) (quote : SwapQuote.t) (altSlug : string).

Let altAsset : _ChainAsset := getAssetBySlug (chainService this) altSlug.
Let fromAsset : _ChainAsset :=
  getAssetBySlug (chainService this) (SwapPair.from (SwapQuote.pair quote)).

Hypothesis Hquote : ValidateSwapProcessParams.selectedQuote params = Some quote.
Hypothesis Halt : getSwapAlternativeAsset (SwapQuote.pair quote) = Some altSlug.





End XcmStep.

(** ** Swap-submission validation *)

(** C3. With a selected quote, [validateSwapStep] returns QUOTE_TIMEOUT
    whenever the clock has reached the quote's [aliveUntil].  The handler,
    and so its balance service, is arbitrary and the world comes back
    unchanged: the verdict is reached before any balance is queried. *)
Theorem validateSwapStep_quote_timeout (this : SwapBaseHandler)
    (params : ValidateSwapProcessParams.t) (isXcmOk : bool)
    (quote : SwapQuote.t) (w : World) :
  ValidateSwapProcessParams.selectedQuote params = Some quote ->
  SwapQuote.aliveUntil quote <= Date_now w ->
  validateSwapStep this params isXcmOk w =
  (w, Resolved [new_TransactionError (SwapTx QUOTE_TIMEOUT)]).
Proof.
  intros Hquote Hexpired. unfold validateSwapStep. rewrite Hquote.
  destruct (Z.leb_spec (SwapQuote.aliveUntil quote) (Date_now w)); [reflexivity | lia].
Qed.

Lemma validateSwapStep_allowance_exceed (this : SwapBaseHandler)
    (params : ValidateSwapProcessParams.t) (quote : SwapQuote.t)
    (fromAsset : _ChainAsset) (amount balance : Amount) :
  hasError (SwapTx SWAP_EXCEED_ALLOWANCE)
    (validateSwapStep_allowance this params quote fromAsset amount balance)
  <-> balance - _getTokenMinAmount fromAsset <= amount.
Proof.
  unfold validateSwapStep_allowance, hasError.
  destruct (Z.geb_spec amount (balance - _getTokenMinAmount fromAsset)) as [Hge | Hlt].
  - split; [lia | ]. intros _. eexists. split; [left; reflexivity | reflexivity].
  - split; [ | lia]. intros (err & Hin & Hty). exfalso.
    destruct (ValidateSwapProcessParams.recipient params) as [recipient|];
      [destruct (_ || _) | ]; cbn in Hin; try tauto.
    destruct Hin as [<- | []]. discriminate.
Qed.

Lemma validateSwapStep_allowance_length (this : SwapBaseHandler)
    (params : ValidateSwapProcessParams.t) (quote : SwapQuote.t)
    (fromAsset : _ChainAsset) (amount balance : Amount) :
  (length (validateSwapStep_allowance this params quote fromAsset amount balance) <= 1)%nat.
Proof.
  unfold validateSwapStep_allowance.
  destruct (_ >=? _); [cbn; lia | ].
  destruct (ValidateSwapProcessParams.recipient params); [destruct (_ || _) | ]; cbn; lia.
Qed.

(** What [validateSwapStep] computes for a live quote once the balance is
    known and above the minimum swap. *)
Lemma validateSwapStep_run (this : SwapBaseHandler)
    (params : ValidateSwapProcessParams.t) (isXcmOk : bool)
    (quote : SwapQuote.t) (w w1 : World) (balance : AmountData.t) :
  let fromAsset :=
    getAssetBySlug (chainService this) (SwapPair.from (SwapQuote.pair quote)) in
  ValidateSwapProcessParams.selectedQuote params = Some quote ->
  Date_now w < SwapQuote.aliveUntil quote ->
  getTokenFreeBalance (balanceService this) (ValidateSwapProcessParams.address params)
    (ChainAsset.originChain fromAsset) (ChainAsset.slug fromAsset) w
    = (w1, Resolved balance) ->
  (forall minSwap, SwapQuote.minSwap quote = Some minSwap ->
                   minSwap < AmountData.value balance) ->
  validateSwapStep this params isXcmOk w =
  (w1, Resolved (validateSwapStep_allowance this params quote fromAsset
                   (SwapQuote.fromAmount quote) (AmountData.value balance))).
Proof.
  intros fromAsset Hquote Halive Hbal Hmin.
  unfold validateSwapStep. rewrite Hquote.
  destruct (Z.leb_spec (SwapQuote.aliveUntil quote) (Date_now w)); [lia | ].
  unfold await, resolve. fold fromAsset. rewrite Hbal.
  destruct (SwapQuote.minSwap quote) as [minSwap|]; [ | reflexivity].
  specialize (Hmin minSwap eq_refl).
  destruct (Z.leb_spec (AmountData.value balance) minSwap); [lia | reflexivity].
Qed.

(** C6. For a live quote whose minimum-swap check passes, [validateSwapStep]
    reports SWAP_EXCEED_ALLOWANCE exactly when
    [fromAmount >= balance - minAmount] of the from-asset.  The verdict is a
    function of the amount and the balance read by this call alone, so
    raising the amount to the threshold yields the error and lowering it
    again clears it. *)
Theorem validateSwapStep_exceed_allowance_iff (this : SwapBaseHandler)
    (params : ValidateSwapProcessParams.t) (isXcmOk : bool)
    (quote : SwapQuote.t) (w w1 : World) (balance : AmountData.t) :
  let fromAsset :=
    getAssetBySlug (chainService this) (SwapPair.from (SwapQuote.pair quote)) in
  ValidateSwapProcessParams.selectedQuote params = Some quote ->
  Date_now w < SwapQuote.aliveUntil quote ->
  getTokenFreeBalance (balanceService this) (ValidateSwapProcessParams.address params)
    (ChainAsset.originChain fromAsset) (ChainAsset.slug fromAsset) w
    = (w1, Resolved balance) ->
  (forall minSwap, SwapQuote.minSwap quote = Some minSwap ->
                   minSwap < AmountData.value balance) ->
  exists errs : list TransactionError.t,
    validateSwapStep this params isXcmOk w = (w1, Resolved errs) /\
    (hasError (SwapTx SWAP_EXCEED_ALLOWANCE) errs
     <-> AmountData.value balance - _getTokenMinAmount fromAsset
         <= SwapQuote.fromAmount quote).
Proof.
  intros fromAsset Hquote Halive Hbal Hmin.
  eexists. split.
  - apply validateSwapStep_run; eassumption.
  - apply validateSwapStep_allowance_exceed.
Qed.

(** Raising the amount to the threshold and lowering it again, on a balance
    that does not move between the two calls: the first call reports
    SWAP_EXCEED_ALLOWANCE, the second does not. *)
Lemma validateSwapStep_no_hysteresis (this : SwapBaseHandler)
    (paramsHigh paramsLow : ValidateSwapProcessParams.t) (isXcmOk : bool)
    (quoteHigh quoteLow : SwapQuote.t) (w w1 w2 : World) (balance : AmountData.t) :
  let fromAsset :=
    getAssetBySlug (chainService this) (SwapPair.from (SwapQuote.pair quoteHigh)) in
  let query :=
    getTokenFreeBalance (balanceService this) (ValidateSwapProcessParams.address paramsHigh)
      (ChainAsset.originChain fromAsset) (ChainAsset.slug fromAsset) in
  ValidateSwapProcessParams.selectedQuote paramsHigh = Some quoteHigh ->
  ValidateSwapProcessParams.selectedQuote paramsLow = Some quoteLow ->
  SwapQuote.pair quoteLow = SwapQuote.pair quoteHigh ->
  ValidateSwapProcessParams.address paramsLow = ValidateSwapProcessParams.address paramsHigh ->
  SwapQuote.minSwap quoteHigh = None ->
  SwapQuote.minSwap quoteLow = None ->
  Date_now w < SwapQuote.aliveUntil quoteHigh ->
  Date_now w1 < SwapQuote.aliveUntil quoteLow ->
  query w = (w1, Resolved balance) ->
  query w1 = (w2, Resolved balance) ->
  SwapQuote.fromAmount quoteLow
    < AmountData.value balance - _getTokenMinAmount fromAsset
    <= SwapQuote.fromAmount quoteHigh ->
  exists errsHigh errsLow : list TransactionError.t,
    validateSwapStep this paramsHigh isXcmOk w = (w1, Resolved errsHigh) /\
    validateSwapStep this paramsLow isXcmOk w1 = (w2, Resolved errsLow) /\
    hasError (SwapTx SWAP_EXCEED_ALLOWANCE) errsHigh /\
    ~ hasError (SwapTx SWAP_EXCEED_ALLOWANCE) errsLow.
Proof.
  intros fromAsset query HqH HqL Hpair Haddr HmH HmL HaliveH HaliveL Hb1 Hb2 [Hlow Hhigh].
  eexists _, _. split; [ | split; [ | split]].
  - apply validateSwapStep_run; [exact HqH | exact HaliveH | exact Hb1 | ].
    intros minSwap Hmin. congruence.
  - apply validateSwapStep_run; [exact HqL | exact HaliveL | | ].
    + rewrite Hpair, Haddr. exact Hb2.
    + intros minSwap Hmin. congruence.
  - apply validateSwapStep_allowance_exceed. exact Hhigh.
  - rewrite validateSwapStep_allowance_exceed, Hpair. fold fromAsset. lia.
Qed.

(** ** At most one error per validation *)

Lemma validateSwapStep_length (this : SwapBaseHandler)
    (params : ValidateSwapProcessParams.t) (isXcmOk : bool)
    (w w' : World) (errs : list TransactionError.t) :
  validateSwapStep this params isXcmOk w = (w', Resolved errs) ->
  (length errs <= 1)%nat.
Proof.
  unfold validateSwapStep, await, resolve.
  destruct (ValidateSwapProcessParams.selectedQuote params) as [quote|].
  - destruct (_ <=? _).
    + intros [= _ <-]. cbn. lia.
    + destruct (getTokenFreeBalance _ _ _ _ w) as [w1 [balance|]]; [ | discriminate].
      destruct (SwapQuote.minSwap quote) as [minSwap|].
      * destruct (_ <=? _); intros [= _ <-];
          [cbn; lia | apply validateSwapStep_allowance_length].
      * intros [= _ <-]. apply validateSwapStep_allowance_length.
  - intros [= _ <-]. cbn. lia.
Qed.

Lemma validateXcmStep_length (this : SwapBaseHandler)
    (params : ValidateSwapProcessParams.t) (stepIndex : nat)
    (w w' : World) (errs : list TransactionError.t) :
  validateXcmStep this params stepIndex w = (w', Resolved errs) ->
  (length errs <= 1)%nat.
Proof.
  unfold validateXcmStep, await, resolve, reject.
  destruct (ValidateSwapProcessParams.selectedQuote params) as [quote|]; [ | discriminate].
  destruct (getSwapAlternativeAsset _) as [altSlug|].
  - destruct (getTokenFreeBalance _ _ _ _ w) as [w1 [altBal|]]; [ | discriminate].
    destruct (getTokenFreeBalance _ _ _ _ w1) as [w2 [fromBal|]]; [ | discriminate].
    destruct (_ !! stepIndex) as [stepFee|]; [ | discriminate].
    destruct (_ !! 0%nat) as [comp|]; [ | discriminate].
    destruct (negb _); intros [= _ <-]; cbn; lia.
  - intros [= _ <-]. cbn. lia.
Qed.

(** C9 (amended). Every step-validation routine of the base handler stops
    at its first failing check: whichever of the four routines produced
    [errs], the sequence holds at most one error. *)
Theorem stepValidation_at_most_one_error (this : SwapBaseHandler)
    (params : ValidateSwapProcessParams.t) (stepIndex : nat) (isXcmOk : bool)
    (w w' : World) (errs : list TransactionError.t) :
  validateXcmStep this params stepIndex w = (w', Resolved errs) \/
  validateTokenApproveStep this params stepIndex w = (w', Resolved errs) \/
  validateSetFeeTokenStep this params stepIndex w = (w', Resolved errs) \/
  validateSwapStep this params isXcmOk w = (w', Resolved errs) ->
  (length errs <= 1)%nat.
Proof.
  intros [Hxcm | [Happrove | [Hfee | Hswap]]].
  - eapply validateXcmStep_length, Hxcm.
  - injection Happrove as _ <-. cbn. lia.
  - injection Hfee as _ <-. cbn. lia.
  - eapply validateSwapStep_length, Hswap.
Qed.

(** ** HydraDX: step generators and readiness *)

(** C10. A step emitted by [getXcmStep] is tagged XCM and its [sendingValue]
    is the whole [fromAmount] of the request. *)
Theorem getXcmStep_sendingValue (this : SwapBaseHandler)
    (params : OptimalSwapPathParams.t) (w w' : World)
    (step : BaseStepDetail.t) (fee : SwapFeeInfo.t) :
  getXcmStep this params w = (w', Resolved (Some (step, fee))) ->
  BaseStepDetail.type step = XCM /\
  exists metadata : XcmMetadata.t,
    BaseStepDetail.metadata step = Some metadata /\
    XcmMetadata.sendingValue metadata
      = SwapRequest.fromAmount (OptimalSwapPathParams.request params).
Proof.
  unfold getXcmStep, await, resolve.
  destruct (getTokenFreeBalance _ _ _ _ w) as [w1 [fromBal|]]; [ | discriminate].
  destruct (negb _); [ | discriminate].
  destruct (getSwapAlternativeAsset _) as [altSlug|]; [ | discriminate].
  destruct (getTokenFreeBalance _ _ _ _ w1) as [w2 [altBal|]]; [ | discriminate].
  destruct (_ >? 0); [ | discriminate].
  destruct (getSubstrateApiIsReady _ _ w2) as [w3 [api|]]; [ | discriminate].
  destruct (createXcmExtrinsic _ w3) as [w4 [xcmTransfer|]]; [ | discriminate].
  destruct (paymentInfo _ _ w4) as [w5 [info|]]; [ | discriminate].
  intros [= _ <- _]. cbn. eauto.
Qed.



(** C7 (amended). While [isReady] is false, [getSwapQuote] fails with
    UNKNOWN and touches nothing.  [generateOptimalProcess] does not read
    [isReady] or the trade router: it resolves to a path, the same one
    whatever the readiness of the handler. *)
Theorem Hydradx_not_ready (this : HydradxHandler) (request : SwapRequest.t)
    (params : OptimalSwapPathParams.t) (w : World) :
  isReady this = false ->
  getSwapQuote this request w = (w, Resolved (inr (new_SwapError UNKNOWN))) /\
  (exists (w' : World) (path : OptimalSwapPath.t),
      Hydradx_generateOptimalProcess this params w = (w', Resolved path)) /\
  (forall (router : option TradeRouter) (ready : bool),
      Hydradx_generateOptimalProcess
        {| swapBaseHandler := swapBaseHandler this;
           tradeRouter := router;
           isTestnet := isTestnet this;
           isReady := ready |} params w
      = Hydradx_generateOptimalProcess this params w).
Proof.
  intros Hready. split; [ | split].
  - unfold getSwapQuote. rewrite Hready. reflexivity.
  - unfold Hydradx_generateOptimalProcess. eexists _, _.
    apply generateOptimalProcess_run.
  - reflexivity.
Qed.

End Properties.

(** * The properties on the concrete world *)

(** The Swap step is yielded, then the balance query of [getXcmStep] is
    rejected: the path holds the seed entries and the Swap step, and the
    generator listed last made no call. *)
Lemma generateOptimalProcess_stops_at_failure_witness :
  allResolve downHandler (testPlan 1500000) [getSubmitStep] world0 [swapStepOnly] world0 /\
  getXcmStep (env := testEnv None) downHandler (testPlan 1500000) world0
  = (logCall "balance hydradx_main-LOCAL-DOT" world0, Rejected) /\
  generateOptimalProcess (env := testEnv None) downHandler (testPlan 1500000)
    ([getSubmitStep] ++ getXcmStep (env := testEnv None) :: [getSubmitStep]) world0
  = (logCall "balance hydradx_main-LOCAL-DOT" world0, Resolved seedAndSwap).
Proof.
  assert (Hbefore :
    allResolve downHandler (testPlan 1500000) [getSubmitStep] world0 [swapStepOnly] world0).
  { apply (allResolve_push downHandler (testPlan 1500000) getSubmitStep []
             world0 swapStepOnly world0 [] world0); [reflexivity | apply allResolve_done]. }
  split; [exact Hbefore | ]. split; [reflexivity | ].
  exact (proj1 (generateOptimalProcess_stops_at_failure (env := testEnv None)
                  downHandler (testPlan 1500000)
                  [getSubmitStep] getXcmStep [getSubmitStep]
                  world0 world0 (logCall "balance hydradx_main-LOCAL-DOT" world0)
                  [swapStepOnly] Hbefore eq_refl)).
Defined.

(** Two generators yield a step each: both stand in the path, in order,
    with their fees, and are numbered 1 and 2. *)
Lemma generateOptimalProcess_path_shape_witness :
  exists (w' : TestWorld) (path : OptimalSwapPath.t),
    generateOptimalProcess (env := testEnv None) (walletHandler 1000000 5000)
      (testPlan 1000000) [getSubmitStep; getSubmitStep] world0 = (w', Resolved path) /\
    length (OptimalSwapPath.steps path) = 3%nat /\
    length (OptimalSwapPath.totalFee path) = 3%nat /\
    map CommonStepDetail.id (OptimalSwapPath.steps path) = [0; 1; 2]%nat /\
    map CommonStepDetail.type (OptimalSwapPath.steps path) = [DEFAULT; SWAP; SWAP].
Proof.
  destruct (generateOptimalProcess_path_shape (env := testEnv None)
              (walletHandler 1000000 5000) (testPlan 1000000)
              [getSubmitStep; getSubmitStep] world0)
    as (w' & path & Hrun & Hstep0 & Hfee0 & Hlen & Hcount & Hyielded).
  exists w', path. split; [exact Hrun | ].
  cbn in Hcount. rewrite Hcount in Hlen.
  destruct (Hyielded 0%nat (BaseStepDetail.mk None None "Swap" SWAP)
              (SwapQuote.feeInfo (liveQuote 1000000)) eq_refl)
    as (_ & step1 & Hstep1 & _ & _ & Hty1 & Hid1 & _).
  destruct (Hyielded 1%nat (BaseStepDetail.mk None None "Swap" SWAP)
              (SwapQuote.feeInfo (liveQuote 1000000)) eq_refl)
    as (_ & step2 & Hstep2 & _ & _ & Hty2 & Hid2 & _).
  destruct path as [fees [|s0 [|s1 [|s2 [|s3 rest]]]]]; try discriminate Hcount.
  cbn in Hstep0, Hstep1, Hstep2.
  injection Hstep0 as ->. injection Hstep1 as ->. injection Hstep2 as ->.
  split; [reflexivity | ]. split; [symmetry; exact Hlen | ].
  cbn. rewrite Hid1, Hid2, Hty1, Hty2. split; reflexivity.
Defined.

(** The quote expired at 500 and the clock reads 1000; the balance service
    rejects every query, and is never asked. *)
Lemma validateSwapStep_quote_timeout_witness :
  ValidateSwapProcessParams.selectedQuote (testValidation dotToHdx 2000000 500 10000)
  = Some expiredQuote /\
  SwapQuote.aliveUntil expiredQuote <= Date_now (SwapEnv := testEnv None) world0 /\
  validateSwapStep (env := testEnv None) downHandler
    (testValidation dotToHdx 2000000 500 10000) true world0
  = (world0, Resolved [new_TransactionError (SwapTx QUOTE_TIMEOUT)]).
Proof.
  split; [reflexivity | ]. split; [vm_compute; discriminate | ].
  apply (validateSwapStep_quote_timeout (env := testEnv None) downHandler
           (testValidation dotToHdx 2000000 500 10000) true expiredQuote world0).
  - reflexivity.
  - vm_compute. discriminate.
Defined.



(** Balance 1,000,000 and minimum amount 0: the threshold is 1,000,000, and
    a request of exactly that amount is refused. *)
Lemma validateSwapStep_exceed_allowance_iff_witness :
  Date_now (SwapEnv := testEnv None) world0 < SwapQuote.aliveUntil (liveQuote 1000000) /\
  exists errs : list TransactionError.t,
    validateSwapStep (env := testEnv None) (walletHandler 1000000 5000)
      (testValidation dotToHdx 1000000 2000 10000) true world0
    = (afterSwapQuery, Resolved errs) /\
    (hasError (SwapTx SWAP_EXCEED_ALLOWANCE) errs <-> 1000000 - 0 <= 1000000).
Proof.
  split; [reflexivity | ].
  apply (validateSwapStep_exceed_allowance_iff (env := testEnv None)
           (walletHandler 1000000 5000) (testValidation dotToHdx 1000000 2000 10000)
           true (liveQuote 1000000) world0 afterSwapQuery (AmountData.mk 1000000 10 "DOT")).
  - reflexivity.
  - reflexivity.
  - reflexivity.
  - intros minSwap Hmin. discriminate Hmin.
Defined.

Lemma stepValidation_at_most_one_error_witness :
  validateSwapStep (env := testEnv None) (walletHandler 1000000 5000)
    (testValidation dotToHdx 2000000 500 10000) true world0
  = (world0, Resolved [new_TransactionError (SwapTx QUOTE_TIMEOUT)]) /\
  (length [new_TransactionError (SwapTx QUOTE_TIMEOUT)] <= 1)%nat.
Proof.
  split; [reflexivity | ].
  apply (stepValidation_at_most_one_error (env := testEnv None)
           (walletHandler 1000000 5000) (testValidation dotToHdx 2000000 500 10000)
           1 true world0 world0).
  right. right. right. reflexivity.
Defined.

(** The first example of the specification: balance 1,000,000, request
    1,500,000, alternative balance 2,000,000, fee 10,000 after the margin.
    The transfer carries the whole 1,500,000. *)
Lemma getXcmStep_sendingValue_witness :
  getXcmStep (env := testEnv (Some 8333)) (walletHandler 1000000 2000000)
    (testPlan 1500000) world0
  = (afterTopUp, Resolved (Some (topUpStep, xcmFeeInfo 10000))) /\
  BaseStepDetail.type topUpStep = XCM /\
  exists metadata : XcmMetadata.t,
    BaseStepDetail.metadata topUpStep = Some metadata /\
    XcmMetadata.sendingValue metadata = 1500000.
Proof.
  split; [reflexivity | ].
  apply (getXcmStep_sendingValue (env := testEnv (Some 8333))
           (walletHandler 1000000 2000000) (testPlan 1500000) world0 afterTopUp
           topUpStep (xcmFeeInfo 10000)).
  reflexivity.
Defined.



Lemma Hydradx_not_ready_witness :
  isReady (testHandler (dotBalances 1000000 2000000)) = false /\
  getSwapQuote (env := testEnv (Some 8333)) (testHandler (dotBalances 1000000 2000000))
    (SwapRequest.mk "5Grw" dotToHdx 1000) world0
  = (world0, Resolved (inr (new_SwapError UNKNOWN))).
Proof.
  split; [reflexivity | ].
  exact (proj1 (Hydradx_not_ready (env := testEnv (Some 8333))
                  (testHandler (dotBalances 1000000 2000000))
                  (SwapRequest.mk "5Grw" dotToHdx 1000) (testPlan 1500000) world0
                  eq_refl)).
Defined.

(** ** Where the specification and the code part *)

(** A generator typed [GenSwapStepFunc] hands back a step that carries
    [id = 7]; the spread lets it stand, so the step appended at position 1
    is not numbered 1. *)
Lemma generateOptimalProcess_keeps_own_id :
  generateOptimalProcess (env := testEnv None) downHandler (testPlan 1500000)
    [getNumberedStep] world0
  = (world0,
     Resolved
       (OptimalSwapPath.mk
          [SwapFeeInfo.mk [] "hydradx_main-NATIVE-HDX" [];
           SwapFeeInfo.mk [] "hydradx_main-NATIVE-HDX" []]
          [CommonStepDetail.mk 0 None "Fill information" DEFAULT;
           CommonStepDetail.mk 7 None "Swap" SWAP])) /\
  ~ (forall (w' : TestWorld) (path : OptimalSwapPath.t),
       generateOptimalProcess (env := testEnv None) downHandler (testPlan 1500000)
         [getNumberedStep] world0 = (w', Resolved path) ->
       forall (i : nat) (step : CommonStepDetail.t),
         (1 <= i)%nat -> OptimalSwapPath.steps path !! i = Some step ->
         CommonStepDetail.id step = i).
Proof.
  split; [reflexivity | ].
  intros Hids.
  specialize (Hids _ _ eq_refl 1%nat (CommonStepDetail.mk 7 None "Swap" SWAP)
                (le_n 1) eq_refl).
  discriminate Hids.
Qed.



(** A handler that was never initialised still produces a plan. *)
Lemma Hydradx_generateOptimalProcess_ignores_readiness :
  isReady (testHandler (dotBalances 1000000 2000000)) = false /\
  exists path : OptimalSwapPath.t,
    Hydradx_generateOptimalProcess (env := testEnv (Some 8333))
      (testHandler (dotBalances 1000000 2000000)) (testPlan 1500000) world0
    = (afterTopUp, Resolved path) /\
    map CommonStepDetail.type (OptimalSwapPath.steps path) = [DEFAULT; XCM; SWAP].
Proof.
  split; [reflexivity | ].
  eexists (OptimalSwapPath.mk _ _). split; reflexivity.
Qed.


(** The quote is expired and the amount is above [balance - minAmount]:
    two checks would fail, one error is returned. *)
Lemma validateSwapStep_reports_first_failure_only :
  SwapQuote.aliveUntil expiredQuote <= Date_now (SwapEnv := testEnv None) world0 /\
  1000000 - _getTokenMinAmount (SwapEnv := testEnv None) hydraDot
    <= SwapQuote.fromAmount expiredQuote /\
  validateSwapStep (env := testEnv None) (walletHandler 1000000 5000)
    (testValidation dotToHdx 2000000 500 10000) true world0
  = (world0, Resolved [new_TransactionError (SwapTx QUOTE_TIMEOUT)]) /\
  ~ (1 < length [new_TransactionError (SwapTx QUOTE_TIMEOUT)])%nat.
Proof.
  split; [vm_compute; discriminate | ]. split; [vm_compute; discriminate | ].
  split; [reflexivity | cbn; lia].
Qed.

(** ** The worked examples of the specification *)

(** The margin on the fee is taken on doubles: 8,333 becomes 10,000 (from
    9,999.6); 4,000,000,000,000,003 becomes 4,800,000,000,000,003, since the
    product, about 4,800,000,000,000,003.4 with the double [1.2], is rounded
    to a double before [Math.round] sees it; and past [2^53] the string
    printed has the digits that identify the double, not all of its digits. *)
Example inflateFee_examples :
  inflateFee 8333 = 10000 /\
  inflateFee 4000000000000003 = 4800000000000003 /\
  inflateFee 10000000000000000 = 12000000000000000 /\
  inflateFee 123456789012345678901 = 148148146814814800000.
Proof. vm_compute. repeat split. Qed.

(** Balance 1,000,000, request 1,500,000, alternative balance 2,000,000, fee
    10,000: the top-up step is valid, since [2,000,000 - 510,000 >= 0]. *)
Example validateXcmStep_example_valid :
  validateXcmStep (env := testEnv None) (walletHandler 1000000 2000000)
    (testValidation dotToHdx 1500000 2000 10000) 1 world0
  = (afterXcmQueries, Resolved []).
Proof. reflexivity. Qed.

(** The same with an alternative balance of 400,000: the maximum affordable
    amount is 1,390,000. *)
Example maxAffordable_example : maxAffordable 1000000 400000 10000 0 = 1390000.
Proof. reflexivity. Qed.

(** A quote alive until [T = 999], validated at [T + 1], with every balance
    sufficient. *)
Example validateSwapStep_example_expired :
  validateSwapStep (env := testEnv None) (walletHandler 1000000000 1000000000)
    (testValidation dotToHdx 1000 999 10000) true world0
  = (world0, Resolved [new_TransactionError (SwapTx QUOTE_TIMEOUT)]).
Proof. reflexivity. Qed.

(** A step out of range of [totalFee] makes [validateXcmStep] throw. *)
Example validateXcmStep_example_out_of_range :
  validateXcmStep (env := testEnv None) (walletHandler 1000000 2000000)
    (testValidation dotToHdx 1500000 2000 10000) 7 world0
  = (afterXcmQueries, Rejected).
Proof. reflexivity. Qed.

(** * Further properties of the handlers *)

Section BaseHandlerProperties.

Context {World : Type} {env : @SwapEnv World}.

(** ** Path assembly *)

Lemma genStepLoop_extends (this : SwapBaseHandler) (params : OptimalSwapPathParams.t)
    (gens : list GenSwapStepFunc) :
  forall (result : OptimalSwapPath.t) (w : World),
    let final := (genStepLoop this params gens result w).2 in
    (exists more, OptimalSwapPath.steps final = OptimalSwapPath.steps result ++ more /\
                  (length more <= length gens)%nat) /\
    (exists more, OptimalSwapPath.totalFee final = OptimalSwapPath.totalFee result ++ more).
Proof.
  induction gens as [|g rest IH]; intros result w; cbn.
  - split; exists []; rewrite app_nil_r; auto.
  - destruct (g this params w) as [w' [[step|]|]]; cbn.
    + destruct (IH (pushStep result step) w') as [(ms & Hs & Hlen) (mf & Hf)].
      cbn in Hs, Hf. rewrite <- app_assoc in Hs, Hf.
      split; eexists; [split; [exact Hs | cbn; lia] | exact Hf].
    + destruct (IH result w') as [(ms & Hs & Hlen) (mf & Hf)].
      split; eexists; [split; [exact Hs | lia] | exact Hf].
    + split; exists []; rewrite app_nil_r; auto. split; [reflexivity | cbn; lia].
Qed.

(** X1. A path never has more steps than one plus the number of generators
    it was given: each generator contributes at most one step. *)
Theorem generateOptimalProcess_step_count (this : SwapBaseHandler)
    (params : OptimalSwapPathParams.t) (genStepFuncList : list GenSwapStepFunc)
    (w : World) :
  exists (w' : World) (path : OptimalSwapPath.t),
    generateOptimalProcess this params genStepFuncList w = (w', Resolved path) /\
    (1 <= length (OptimalSwapPath.steps path) <= 1 + length genStepFuncList)%nat.
Proof.
  eexists _, _. split; [apply generateOptimalProcess_run | ].
  destruct (genStepLoop_extends this params genStepFuncList initialPath w)
    as [(more & Hsteps & Hlen) _].
  rewrite Hsteps. cbn. lia.
Qed.

Lemma genStepLoop_app_extends (this : SwapBaseHandler) (params : OptimalSwapPathParams.t)
    (before after : list GenSwapStepFunc) :
  forall (result : OptimalSwapPath.t) (w : World),
    let short := (genStepLoop this params before result w).2 in
    let long := (genStepLoop this params (before ++ after) result w).2 in
    (exists more, OptimalSwapPath.steps long = OptimalSwapPath.steps short ++ more) /\
    (exists more, OptimalSwapPath.totalFee long = OptimalSwapPath.totalFee short ++ more).
Proof.
  induction before as [|g rest IH]; intros result w; cbn.
  - destruct (genStepLoop_extends this params after result w) as [(ms & Hs & _) Hf].
    split; [exists ms; exact Hs | exact Hf].
  - destruct (g this params w) as [w' [[step|]|]]; cbn.
    + apply IH.
    + apply IH.
    + split; exists []; rewrite app_nil_r; reflexivity.
Qed.

(** X2. Appending generators to the list never changes what the earlier
    ones produced: run from the same world, the path for [before] is a
    prefix, in steps and in fees, of the path for [before ++ after]. *)
Theorem generateOptimalProcess_prefix_stable (this : SwapBaseHandler)
    (params : OptimalSwapPathParams.t) (before after : list GenSwapStepFunc)
    (w : World) :
  exists (w1 w2 : World) (short long : OptimalSwapPath.t),
    generateOptimalProcess this params before w = (w1, Resolved short) /\
    generateOptimalProcess this params (before ++ after) w = (w2, Resolved long) /\
    (exists more, OptimalSwapPath.steps long = OptimalSwapPath.steps short ++ more) /\
    (exists more, OptimalSwapPath.totalFee long = OptimalSwapPath.totalFee short ++ more).
Proof.
  eexists _, _, _, _.
  split; [apply generateOptimalProcess_run | ].
  split; [apply generateOptimalProcess_run | ].
  apply genStepLoop_app_extends.
Qed.

(** ** Cross-chain top-up validation *)

Section XcmStepMore.

Variables (this : @SwapBaseHandler World) (params : ValidateSwapProcessParams.t)
          (stepIndex : nat) (quote : SwapQuote.t) (altSlug : string).

Let altAsset : _ChainAsset := getAssetBySlug (chainService this) altSlug.
Let fromAsset : _ChainAsset :=
  getAssetBySlug (chainService this) (SwapPair.from (SwapQuote.pair quote)).

Hypothesis Hquote : ValidateSwapProcessParams.selectedQuote params = Some quote.
Hypothesis Halt : getSwapAlternativeAsset (SwapQuote.pair quote) = Some altSlug.



End XcmStepMore.

(** ** Swap-submission validation *)

Section SwapStepMore.

Variables (this : @SwapBaseHandler World) (params : ValidateSwapProcessParams.t)
          (isXcmOk : bool) (quote : SwapQuote.t).

Let fromAsset : _ChainAsset :=
  getAssetBySlug (chainService this) (SwapPair.from (SwapQuote.pair quote)).
Let destChainInfo : _ChainInfo :=
  getChainInfoByKey (chainService this)
    (ChainAsset.originChain
       (getAssetBySlug (chainService this) (SwapPair.to (SwapQuote.pair quote)))).
Let query : Async AmountData.t :=
  getTokenFreeBalance (balanceService this) (ValidateSwapProcessParams.address params)
    (ChainAsset.originChain fromAsset) (ChainAsset.slug fromAsset).

Hypothesis Hquote : ValidateSwapProcessParams.selectedQuote params = Some quote.

(** [validateSwapStep] on a live quote, once the balance is read. *)
Lemma validateSwapStep_live (w w1 : World) (balance : AmountData.t) :
  Date_now w < SwapQuote.aliveUntil quote ->
  query w = (w1, Resolved balance) ->
  validateSwapStep this params isXcmOk w =
  (w1, Resolved
         (match SwapQuote.minSwap quote with
          | Some minSwap =>
              if AmountData.value balance <=? minSwap then
                [new_TransactionError_msg (SwapTx SWAP_NOT_ENOUGH_BALANCE)
                   (minSwapMessage (formatNumber minSwap (_getAssetDecimals fromAsset))
                      (ChainAsset.symbol fromAsset))]
              else validateSwapStep_allowance this params quote fromAsset
                     (SwapQuote.fromAmount quote) (AmountData.value balance)
          | None => validateSwapStep_allowance this params quote fromAsset
                      (SwapQuote.fromAmount quote) (AmountData.value balance)
          end)).
Proof.
  intros Halive Hbal. unfold validateSwapStep. rewrite Hquote.
  destruct (Z.leb_spec (SwapQuote.aliveUntil quote) (Date_now w)); [lia | ].
  unfold await, resolve. fold fromAsset. fold query. rewrite Hbal.
  destruct (SwapQuote.minSwap quote) as [minSwap|]; [ | reflexivity].
  destruct (_ <=? _); reflexivity.
Qed.

(** X5. The minimum swap is compared with the balance, not with the
    requested amount: on a live quote with a minimum swap, a balance at or
    below it gives SWAP_NOT_ENOUGH_BALANCE whatever the amount and the
    recipient are. *)
Theorem validateSwapStep_below_min_swap (w w1 : World) (balance : AmountData.t)
    (minSwap : Amount) :
  Date_now w < SwapQuote.aliveUntil quote ->
  query w = (w1, Resolved balance) ->
  SwapQuote.minSwap quote = Some minSwap ->
  AmountData.value balance <= minSwap ->
  validateSwapStep this params isXcmOk w =
  (w1, Resolved
         [new_TransactionError_msg (SwapTx SWAP_NOT_ENOUGH_BALANCE)
            (minSwapMessage (formatNumber minSwap (_getAssetDecimals fromAsset))
               (ChainAsset.symbol fromAsset))]).
Proof.
  intros Halive Hbal Hmin Hle.
  rewrite (validateSwapStep_live _ _ _ Halive Hbal), Hmin.
  destruct (Z.leb_spec (AmountData.value balance) minSwap); [reflexivity | lia].
Qed.



(** X8. [validateSwapStep] does not catch a failing balance query: on a live
    quote, if the query is rejected so is the validation. *)
Theorem validateSwapStep_balance_failure (w w1 : World) :
  Date_now w < SwapQuote.aliveUntil quote ->
  query w = (w1, Rejected) ->
  validateSwapStep this params isXcmOk w = (w1, Rejected).
Proof.
  intros Halive Hbal. unfold validateSwapStep. rewrite Hquote.
  destruct (Z.leb_spec (SwapQuote.aliveUntil quote) (Date_now w)); [lia | ].
  unfold await. fold fromAsset. fold query. rewrite Hbal. reflexivity.
Qed.

End SwapStepMore.

End BaseHandlerProperties.

Section HydradxProperties.

Context {World : Type} {env : @SwapEnv World}.

(** ** Early validation of a request *)

Section SwapRequestValidation.

Variables (this : @HydradxHandler World) (request : SwapRequest.t).

Let cs : ChainService := chainService (swapBaseHandler this).
Let fromAsset : _ChainAsset :=
  getAssetBySlug cs (SwapPair.from (SwapRequest.pair request)).
Let toAsset : _ChainAsset :=
  getAssetBySlug cs (SwapPair.to (SwapRequest.pair request)).
Let query : Async AmountData.t :=
  getTokenFreeBalance (balanceService (swapBaseHandler this))
    (SwapRequest.address request)
    (ChainAsset.originChain fromAsset) (ChainAsset.slug fromAsset).

Lemma validateSwapRequest_supported :
  requestSupported this request ->
  validateSwapRequest this request =
  try_catch
    (await query (fun fromAssetBalance =>
       let bnMaxBalanceSwap :=
         AmountData.value fromAssetBalance - _getTokenMinAmount fromAsset in
       if SwapRequest.fromAmount request <=? 0 then
         resolve (earlyError AMOUNT_CANNOT_BE_ZERO)
       else if SwapRequest.fromAmount request >=? bnMaxBalanceSwap then
         resolve (earlyError SWAP_EXCEED_ALLOWANCE)
       else
         resolve
           (SwapEarlyValidation.mk None
              (Some (HydradxPreValidationMetadata.mk
                       (getChainInfoByKey cs (chain this))
                       (AmountData.mk bnMaxBalanceSwap (_getAssetDecimals fromAsset)
                          (ChainAsset.symbol fromAsset)))))))
    (resolve (earlyError UNKNOWN)).
Proof.
  intros (Hfrom & Hto & Hid1 & Hid2).
  unfold validateSwapRequest. cbv zeta.
  rewrite (proj2 (String.eqb_eq _ _) Hfrom), (proj2 (String.eqb_eq _ _) Hto).
  cbn [andb negb].
  unfold noAssetId.
  destruct (String.eqb_spec (_getTokenOnChainAssetId
              (getAssetBySlug (chainService (swapBaseHandler this))
                 (SwapPair.from (SwapRequest.pair request)))) EmptyString);
    [contradiction | ].
  destruct (String.eqb_spec (_getTokenOnChainAssetId
              (getAssetBySlug (chainService (swapBaseHandler this))
                 (SwapPair.to (SwapRequest.pair request)))) EmptyString);
    [contradiction | ].
  reflexivity.
Qed.

Lemma validateSwapRequest_resolves (w : World) :
  exists (w' : World) (validation : SwapEarlyValidation.t),
    validateSwapRequest this request w = (w', Resolved validation).
Proof.
  unfold validateSwapRequest, try_catch, await, resolve.
  repeat match goal with
         | |- context [if ?b then _ else _] => destruct b
         | |- context [match ?q w with _ => _ end] => destruct (q w) as [? [?|]]
         end; eauto.
Qed.

(** X9. [validateSwapRequest] never throws, whatever the balance service
    does, and its answer carries either an error or the metadata, never both
    and never neither. *)
Theorem validateSwapRequest_error_xor_metadata (w : World) :
  exists (w' : World) (validation : SwapEarlyValidation.t),
    validateSwapRequest this request w = (w', Resolved validation) /\
    (SwapEarlyValidation.error validation = None
     <-> SwapEarlyValidation.metadata validation <> None).
Proof.
  unfold validateSwapRequest. fold cs. fold fromAsset toAsset.
  destruct (negb _).
  { eexists _, _. split; [reflexivity | ]. cbn. split; [discriminate | congruence]. }
  destruct (_ || _).
  { eexists _, _. split; [reflexivity | ]. cbn. split; [discriminate | congruence]. }
  unfold try_catch, await, resolve. fold query.
  destruct (query w) as [w1 [balance|]].
  - destruct (_ <=? 0); [ | destruct (_ >=? _)];
      (eexists _, _; split; [reflexivity | ]; cbn;
       split; [discriminate || congruence | discriminate || congruence]).
  - eexists _, _. split; [reflexivity | ]. cbn. split; [discriminate | congruence].
Qed.

(** X10. For a supported request, a rejected balance query is caught and
    answered with UNKNOWN. *)
Theorem validateSwapRequest_balance_failure (w w1 : World) :
  requestSupported this request ->
  query w = (w1, Rejected) ->
  validateSwapRequest this request w = (w1, Resolved (earlyError UNKNOWN)).
Proof.
  intros Hsupported Hbal. rewrite (validateSwapRequest_supported Hsupported).
  unfold try_catch, await. rewrite Hbal. reflexivity.
Qed.

(** X11. [validateSwapRequest] answers ASSET_NOT_SUPPORTED exactly when one
    of the two assets does not originate on the chain of the handler, and
    then without any external call. *)
Theorem validateSwapRequest_not_supported_iff (w : World) :
  exists (w' : World) (validation : SwapEarlyValidation.t),
    validateSwapRequest this request w = (w', Resolved validation) /\
    (SwapEarlyValidation.error validation = Some ASSET_NOT_SUPPORTED
     <-> ~ (ChainAsset.originChain fromAsset = chain this /\
            ChainAsset.originChain toAsset = chain this)) /\
    (SwapEarlyValidation.error validation = Some ASSET_NOT_SUPPORTED -> w' = w).
Proof.
  unfold validateSwapRequest. fold cs. fold fromAsset toAsset.
  destruct (String.eqb_spec (ChainAsset.originChain fromAsset) (chain this)) as [Hfrom | Hfrom];
    [destruct (String.eqb_spec (ChainAsset.originChain toAsset) (chain this)) as [Hto | Hto] | ];
    cbn [andb negb].
  - assert (Hyes : ~ ~ (ChainAsset.originChain fromAsset = chain this /\
                        ChainAsset.originChain toAsset = chain this)) by tauto.
    destruct (_ || _).
    { eexists _, _. split; [reflexivity | ]. cbn. split; [split; [discriminate | tauto] | discriminate]. }
    unfold try_catch, await, resolve. fold query.
    destruct (query w) as [w1 [balance|]].
    + destruct (_ <=? 0); [ | destruct (_ >=? _)];
        (eexists _, _; split; [reflexivity | ]; cbn;
         split; [split; [discriminate | tauto] | discriminate]).
    + eexists _, _. split; [reflexivity | ]. cbn.
      split; [split; [discriminate | tauto] | discriminate].
  - eexists _, _. split; [reflexivity | ]. cbn. split; [ | reflexivity].
    split; [intros _ [_ H]; contradiction | reflexivity].
  - eexists _, _. split; [reflexivity | ]. cbn. split; [ | reflexivity].
    split; [intros _ [H _]; contradiction | reflexivity].
Qed.

(** X12. For a supported request whose balance query resolves, the request
    passes exactly when [0 < fromAmount < balance - minAmount]; a
    non-positive amount is reported as AMOUNT_CANNOT_BE_ZERO before the
    allowance is looked at, and the metadata of a passing request carries
    [balance - minAmount] as its maximum. *)
Theorem validateSwapRequest_passes_iff (w w1 : World) (balance : AmountData.t) :
  requestSupported this request ->
  query w = (w1, Resolved balance) ->
  let maxSwap := AmountData.value balance - _getTokenMinAmount fromAsset in
  exists validation : SwapEarlyValidation.t,
    validateSwapRequest this request w = (w1, Resolved validation) /\
    (SwapEarlyValidation.error validation = None
     <-> 0 < SwapRequest.fromAmount request < maxSwap) /\
    (SwapRequest.fromAmount request <= 0 ->
     SwapEarlyValidation.error validation = Some AMOUNT_CANNOT_BE_ZERO) /\
    (0 < SwapRequest.fromAmount request -> maxSwap <= SwapRequest.fromAmount request ->
     SwapEarlyValidation.error validation = Some SWAP_EXCEED_ALLOWANCE) /\
    (forall metadata, SwapEarlyValidation.metadata validation = Some metadata ->
       AmountData.value (HydradxPreValidationMetadata.maxSwap metadata) = maxSwap).
Proof.
  intros Hsupported Hbal maxSwap. rewrite (validateSwapRequest_supported Hsupported).
  unfold try_catch, await, resolve. rewrite Hbal. fold maxSwap.
  destruct (Z.leb_spec (SwapRequest.fromAmount request) 0);
    [ | destruct (Z.geb_spec (SwapRequest.fromAmount request) maxSwap)];
    (eexists; split; [reflexivity | ]; cbn;
     repeat split; try discriminate; try lia; try reflexivity).
  intros metadata [= <-]. reflexivity.
Qed.

End SwapRequestValidation.

(** ** Quotes *)

Lemma getSwapQuote_ready (this : HydradxHandler) (request : SwapRequest.t)
    (w w1 : World) (validation : SwapEarlyValidation.t) :
  isReady this = true ->
  isUndefined (tradeRouter this) = false ->
  validateSwapRequest this request w = (w1, Resolved validation) ->
  getSwapQuote this request w
  = (w1, Resolved (quoteAnswer this request validation (Date_now w1))).
Proof.
  intros Hready Hrouter Hvalid.
  unfold getSwapQuote, await, resolve, quoteAnswer.
  rewrite Hready, Hrouter. cbn [negb orb]. rewrite Hvalid.
  destruct (SwapEarlyValidation.error validation); [reflexivity | ].
  destruct (calculateSwapRate _ _ _ _); reflexivity.
Qed.

(** X13. [getSwapQuote] never throws: ready or not, and whatever the
    balance service and the rate computation do, it resolves to a quote or
    to an error value. *)
Theorem getSwapQuote_resolves (this : HydradxHandler) (request : SwapRequest.t)
    (w : World) :
  exists (w' : World) (answer : SwapQuote.t + SwapError.t),
    getSwapQuote this request w = (w', Resolved answer).
Proof.
  destruct (isReady this) eqn:Hready.
  - destruct (isUndefined (tradeRouter this)) eqn:Hrouter.
    + unfold getSwapQuote. rewrite Hready, Hrouter. eexists _, _. reflexivity.
    + destruct (validateSwapRequest_resolves this request w) as (w1 & validation & Hvalid).
      eexists _, _. apply (getSwapQuote_ready _ _ _ _ _ Hready Hrouter Hvalid).
  - unfold getSwapQuote. rewrite Hready. eexists _, _. reflexivity.
Qed.

Lemma getSwapQuote_inl (this : HydradxHandler) (request : SwapRequest.t)
    (w w' : World) (quote : SwapQuote.t) :
  getSwapQuote this request w = (w', Resolved (inl quote)) ->
  isReady this = true /\ isUndefined (tradeRouter this) = false /\
  exists (validation : SwapEarlyValidation.t) (rate : Q),
    validateSwapRequest this request w = (w', Resolved validation) /\
    SwapEarlyValidation.error validation = None /\
    quote = issuedQuote this request rate (Date_now w').
Proof.
  intros Hrun.
  destruct (isReady this) eqn:Hready;
    [ | unfold getSwapQuote in Hrun; rewrite Hready in Hrun; discriminate].
  destruct (isUndefined (tradeRouter this)) eqn:Hrouter;
    [unfold getSwapQuote in Hrun; rewrite Hready, Hrouter in Hrun; discriminate | ].
  destruct (validateSwapRequest_resolves this request w) as (w1 & validation & Hvalid).
  rewrite (getSwapQuote_ready _ _ _ _ _ Hready Hrouter Hvalid) in Hrun.
  unfold quoteAnswer in Hrun.
  destruct (SwapEarlyValidation.error validation) eqn:Herr; [discriminate | ].
  destruct (calculateSwapRate _ _ _ _) as [rate|]; [ | discriminate].
  injection Hrun as <- <-. repeat split. exists validation, rate. auto.
Qed.

(** X14. A quote is only ever issued by a ready handler with a trade router,
    for a supported request with [0 < fromAmount < balance - minAmount] on
    the balance read during the call; it echoes the pair and the amount of
    the request and expires [quoteTimeout] after the clock reading taken
    when it is built. *)
Theorem getSwapQuote_issued (this : HydradxHandler) (request : SwapRequest.t)
    (w w' : World) (quote : SwapQuote.t) :
  getSwapQuote this request w = (w', Resolved (inl quote)) ->
  isReady this = true /\
  tradeRouter this <> None /\
  SwapQuote.pair quote = SwapRequest.pair request /\
  SwapQuote.fromAmount quote = SwapRequest.fromAmount request /\
  SwapQuote.aliveUntil quote
    = Date_now w' + quoteTimeout (providerSlug (swapBaseHandler this)) /\
  0 < SwapRequest.fromAmount request /\
  exists balance : AmountData.t,
    let fromAsset :=
      getAssetBySlug (chainService (swapBaseHandler this))
        (SwapPair.from (SwapRequest.pair request)) in
    getTokenFreeBalance (balanceService (swapBaseHandler this))
      (SwapRequest.address request)
      (ChainAsset.originChain fromAsset) (ChainAsset.slug fromAsset) w
    = (w', Resolved balance) /\
    SwapRequest.fromAmount request
      < AmountData.value balance - _getTokenMinAmount fromAsset.
Proof.
  intros Hrun.
  destruct (getSwapQuote_inl _ _ _ _ _ Hrun)
    as (Hready & Hrouter & validation & rate & Hvalid & Herr & ->).
  split; [exact Hready | ].
  split; [destruct (tradeRouter this); [discriminate | discriminate Hrouter] | ].
  split; [reflexivity | ]. split; [reflexivity | ]. split; [reflexivity | ].
  unfold validateSwapRequest, try_catch, await, resolve in Hvalid.
  destruct (negb _); [injection Hvalid as _ <-; discriminate Herr | ].
  destruct (_ || _); [injection Hvalid as _ <-; discriminate Herr | ].
  destruct (getTokenFreeBalance _ _ _ _ w) as [w1 [balance|]] eqn:Hbal;
    [ | injection Hvalid as _ <-; discriminate Herr].
  destruct (Z.leb_spec (SwapRequest.fromAmount request) 0);
    [injection Hvalid as _ <-; discriminate Herr | ].
  match type of Hvalid with
  | context [?a >=? ?b] => destruct (Z.geb_spec a b)
  end; [injection Hvalid as _ <-; discriminate Herr | ].
  injection Hvalid as <- _.
  split; [lia | ]. exists balance. split; [exact Hbal | lia].
Qed.

Lemma validateSwapStep_timeout_iff (this : SwapBaseHandler)
    (params : ValidateSwapProcessParams.t) (isXcmOk : bool) (quote : SwapQuote.t)
    (w : World) :
  ValidateSwapProcessParams.selectedQuote params = Some quote ->
  (exists (w' : World) (errs : list TransactionError.t),
      validateSwapStep this params isXcmOk w = (w', Resolved errs) /\
      hasError (SwapTx QUOTE_TIMEOUT) errs)
  <-> SwapQuote.aliveUntil quote <= Date_now w.
Proof.
  intros Hquote. unfold validateSwapStep. rewrite Hquote.
  destruct (Z.leb_spec (SwapQuote.aliveUntil quote) (Date_now w)) as [Hdead | Halive].
  - split; [intros _; exact Hdead | ]. intros _.
    eexists _, _. split; [reflexivity | ].
    eexists. split; [left; reflexivity | reflexivity].
  - split; [ | lia]. intros (w' & errs & Hrun & err & Hin & Hty). exfalso.
    unfold await, resolve in Hrun.
    destruct (getTokenFreeBalance _ _ _ _ w) as [w1 [balance|]]; [ | discriminate].
    assert (Hallow : forall a b,
      ~ In err (validateSwapStep_allowance this params quote
                  (getAssetBySlug (chainService this)
                     (SwapPair.from (SwapQuote.pair quote))) a b)).
    { intros a b. unfold validateSwapStep_allowance.
      destruct (_ >=? _); [intros [<- | []]; discriminate | ].
      destruct (ValidateSwapProcessParams.recipient params); [destruct (_ || _) | ];
        cbn; try tauto. intros [<- | []]. discriminate. }
    destruct (SwapQuote.minSwap quote) as [minSwap|].
    + destruct (_ <=? _); injection Hrun as _ <-.
      * destruct Hin as [<- | []]. discriminate.
      * exact (Hallow _ _ Hin).
    + injection Hrun as _ <-. exact (Hallow _ _ Hin).
Qed.

(** X15. A quote issued when the clock read [T] is refused as expired by
    [validateSwapStep] exactly from [T + quoteTimeout] on; before that the
    validation never reports QUOTE_TIMEOUT. *)
Theorem issued_quote_expiry (this : HydradxHandler) (request : SwapRequest.t)
    (w w' : World) (quote : SwapQuote.t)
    (validator : SwapBaseHandler) (params : ValidateSwapProcessParams.t)
    (isXcmOk : bool) (wv : World) :
  getSwapQuote this request w = (w', Resolved (inl quote)) ->
  ValidateSwapProcessParams.selectedQuote params = Some quote ->
  (exists (wv' : World) (errs : list TransactionError.t),
      validateSwapStep validator params isXcmOk wv = (wv', Resolved errs) /\
      hasError (SwapTx QUOTE_TIMEOUT) errs)
  <-> Date_now w' + quoteTimeout (providerSlug (swapBaseHandler this)) <= Date_now wv.
Proof.
  intros Hrun Hquote.
  destruct (getSwapQuote_inl _ _ _ _ _ Hrun)
    as (_ & _ & validation & rate & _ & _ & Hq).
  rewrite (validateSwapStep_timeout_iff validator params isXcmOk quote wv Hquote).
  rewrite Hq. reflexivity.
Qed.

Lemma validateSwapRequest_passed (this : HydradxHandler) (request : SwapRequest.t)
    (w w1 : World) (validation : SwapEarlyValidation.t) :
  validateSwapRequest this request w = (w1, Resolved validation) ->
  SwapEarlyValidation.error validation = None ->
  exists balance : AmountData.t,
    let fromAsset :=
      getAssetBySlug (chainService (swapBaseHandler this))
        (SwapPair.from (SwapRequest.pair request)) in
    getTokenFreeBalance (balanceService (swapBaseHandler this))
      (SwapRequest.address request)
      (ChainAsset.originChain fromAsset) (ChainAsset.slug fromAsset) w
    = (w1, Resolved balance) /\
    0 < SwapRequest.fromAmount request
      < AmountData.value balance - _getTokenMinAmount fromAsset.
Proof.
  intros Hvalid Herr.
  unfold validateSwapRequest, try_catch, await, resolve in Hvalid.
  destruct (negb _); [injection Hvalid as _ <-; discriminate Herr | ].
  destruct (_ || _); [injection Hvalid as _ <-; discriminate Herr | ].
  destruct (getTokenFreeBalance _ _ _ _ w) as [w2 [balance|]] eqn:Hbal;
    [ | injection Hvalid as _ <-; discriminate Herr].
  destruct (Z.leb_spec (SwapRequest.fromAmount request) 0);
    [injection Hvalid as _ <-; discriminate Herr | ].
  match type of Hvalid with
  | context [?a >=? ?b] => destruct (Z.geb_spec a b)
  end; [injection Hvalid as _ <-; discriminate Herr | ].
  injection Hvalid as <- _. exists balance. cbv zeta. split; [exact Hbal | lia].
Qed.

(** X16. The early validation and the submit validation agree on the
    allowance: if a request passed [validateSwapRequest] and the balance has
    not gone down since, [validateSwapStep] on a quote for the same pair,
    amount and address never reports SWAP_EXCEED_ALLOWANCE. *)
Theorem early_validation_covers_allowance (this : HydradxHandler)
    (request : SwapRequest.t) (w w1 : World) (validation : SwapEarlyValidation.t)
    (params : ValidateSwapProcessParams.t) (isXcmOk : bool) (quote : SwapQuote.t)
    (wv wv' : World) (errs : list TransactionError.t) :
  let fromAsset :=
    getAssetBySlug (chainService (swapBaseHandler this))
      (SwapPair.from (SwapRequest.pair request)) in
  let query :=
    getTokenFreeBalance (balanceService (swapBaseHandler this))
      (SwapRequest.address request)
      (ChainAsset.originChain fromAsset) (ChainAsset.slug fromAsset) in
  validateSwapRequest this request w = (w1, Resolved validation) ->
  SwapEarlyValidation.error validation = None ->
  ValidateSwapProcessParams.selectedQuote params = Some quote ->
  SwapQuote.pair quote = SwapRequest.pair request ->
  SwapQuote.fromAmount quote = SwapRequest.fromAmount request ->
  ValidateSwapProcessParams.address params = SwapRequest.address request ->
  (forall before after wa wb, query w = (wa, Resolved before) ->
                              query wv = (wb, Resolved after) ->
                              AmountData.value before <= AmountData.value after) ->
  validateSwapStep (swapBaseHandler this) params isXcmOk wv = (wv', Resolved errs) ->
  ~ hasError (SwapTx SWAP_EXCEED_ALLOWANCE) errs.
Proof.
  intros fromAsset query Hvalid Herr Hquote Hpair Hamount Haddr Hstable Hrun.
  destruct (validateSwapRequest_passed _ _ _ _ _ Hvalid Herr) as (before & Hbefore & Hrange).
  cbv zeta in Hbefore, Hrange. fold fromAsset in Hbefore, Hrange. fold query in Hbefore.
  intros (err & Hin & Hty).
  unfold validateSwapStep in Hrun. rewrite Hquote in Hrun.
  destruct (_ <=? _).
  { injection Hrun as _ <-. destruct Hin as [<- | []]. discriminate. }
  unfold await, resolve in Hrun. rewrite Hpair, Haddr in Hrun.
  fold fromAsset in Hrun. fold query in Hrun.
  destruct (query wv) as [wb [after|]] eqn:Hafter; [ | discriminate].
  specialize (Hstable before after w1 wb Hbefore eq_refl).
  assert (Hallow :
    ~ In err (validateSwapStep_allowance (swapBaseHandler this) params quote fromAsset
                (SwapQuote.fromAmount quote) (AmountData.value after))).
  { unfold validateSwapStep_allowance. rewrite Hamount.
    destruct (Z.geb_spec (SwapRequest.fromAmount request)
                (AmountData.value after - _getTokenMinAmount fromAsset)); [lia | ].
    destruct (ValidateSwapProcessParams.recipient params); [destruct (_ || _) | ];
      cbn; try tauto. intros [<- | []]. discriminate. }
  destruct (SwapQuote.minSwap quote) as [minSwap|].
  - destruct (_ <=? _); injection Hrun as _ <-.
    + destruct Hin as [<- | []]. discriminate.
    + exact (Hallow Hin).
  - injection Hrun as _ <-. exact (Hallow Hin).
Qed.

(** ** Readiness *)

(** X17. When [init] resolves, the handler it leaves is ready and has a
    trade router, on the same base handler and network; and a chain that is
    already active is not enabled again: the only external call is the wait
    for the connection. *)
Theorem init_ready (this : HydradxHandler) (w w' : World) (ready : HydradxHandler) :
  init this w = (w', Resolved ready) ->
  isReady ready = true /\
  tradeRouter ready <> None /\
  swapBaseHandler ready = swapBaseHandler this /\
  isTestnet ready = isTestnet this /\
  (getChainStateActive (chainService (swapBaseHandler this)) (chain this) w = true ->
   exists api : _SubstrateApi,
     getSubstrateApiIsReady (chainService (swapBaseHandler this)) (chain this) w
     = (w', Resolved api)).
Proof.
  unfold init, await, resolve.
  destruct (getChainStateActive _ _ w) eqn:Hactive; cbn [negb].
  - destruct (getSubstrateApiIsReady _ _ w) as [w1 [api|]]; [ | discriminate].
    intros [= <- <-]. cbn. repeat split; try discriminate. intros _. eauto.
  - destruct (enableChain _ _ w) as [w1 [[]|]]; [ | discriminate].
    destruct (getSubstrateApiIsReady _ _ w1) as [w2 [api|]]; [ | discriminate].
    intros [= <- <-]. cbn. repeat split; discriminate.
Qed.

(** X18. After [init] has resolved, readiness no longer decides the answer
    of [getSwapQuote]: for every request, the handler runs the early
    validation and answers with its forwarded error, with
    ERROR_FETCHING_QUOTE if the rate computation throws, or with a quote. *)
Theorem init_then_getSwapQuote (this : HydradxHandler) (w w' : World)
    (ready : HydradxHandler) (request : SwapRequest.t) (wq : World) :
  init this w = (w', Resolved ready) ->
  exists (wq' : World) (validation : SwapEarlyValidation.t),
    validateSwapRequest ready request wq = (wq', Resolved validation) /\
    getSwapQuote ready request wq
    = (wq', Resolved (quoteAnswer ready request validation (Date_now wq'))).
Proof.
  intros Hinit.
  assert (Hready : isReady ready = true /\ isUndefined (tradeRouter ready) = false).
  { unfold init, await, resolve in Hinit.
    destruct (negb _).
    - destruct (enableChain _ _ w) as [w1 [[]|]]; [ | discriminate].
      destruct (getSubstrateApiIsReady _ _ w1) as [w2 [api|]]; [ | discriminate].
      injection Hinit as _ <-. split; reflexivity.
    - destruct (getSubstrateApiIsReady _ _ w) as [w2 [api|]]; [ | discriminate].
      injection Hinit as _ <-. split; reflexivity. }
  destruct Hready as [Hready Hrouter].
  destruct (validateSwapRequest_resolves ready request wq) as (wq' & validation & Hvalid).
  exists wq', validation. split; [exact Hvalid | ].
  apply (getSwapQuote_ready _ _ _ _ _ Hready Hrouter Hvalid).
Qed.

(** ** Step generators and the plan *)

Section PlanGeneration.

Variables (this : @SwapBaseHandler World) (params : OptimalSwapPathParams.t).

Let request : SwapRequest.t := OptimalSwapPathParams.request params.
Let fromAsset : _ChainAsset := topUpFromAsset this params.
Let query : Async AmountData.t :=
  getTokenFreeBalance (balanceService this) (SwapRequest.address request)
    (ChainAsset.originChain fromAsset) (ChainAsset.slug fromAsset).

(** X19. With a balance that covers the request (an equal balance
    included), or with no alternative asset configured for the pair,
    [getXcmStep] yields no step and makes no external call beyond the one
    balance query. *)
Theorem getXcmStep_no_step (w w1 : World) (balance : AmountData.t) :
  query w = (w1, Resolved balance) ->
  SwapRequest.fromAmount request <= AmountData.value balance \/
  getSwapAlternativeAsset (SwapRequest.pair request) = None ->
  getXcmStep this params w = (w1, Resolved None).
Proof.
  intros Hbal Hcase. unfold getXcmStep, await, resolve.
  fold request. unfold topUpFromAsset in fromAsset. fold request in fromAsset.
  fold fromAsset. fold query. rewrite Hbal.
  destruct (Z.geb_spec (AmountData.value balance) (SwapRequest.fromAmount request));
    [reflexivity | ].
  destruct Hcase as [Hle | Hnone]; [lia | ]. cbn [negb]. rewrite Hnone. reflexivity.
Qed.

(** X20. [getXcmStep] yields a step only after the whole top-up sequence
    has resolved: the balance was short, an alternative asset is configured
    and holds a positive balance, and the connection, the transfer and its
    fee query succeeded.  The fee of the step has a single NETWORK_FEE
    component, in the native token of the alternative chain, which is also
    the default and the only fee option; as long as it is a finite number,
    its amount is the partial fee of the query inflated by [inflateFee]. *)
Theorem getXcmStep_step_inversion (w w' : World)
    (step : BaseStepDetail.t) (fee : SwapFeeInfo.t) :
  getXcmStep this params w = (w', Resolved (Some (step, fee))) ->
  exists (altSlug : string) (info : RuntimeDispatchInfo.t) (amount : option Amount),
    getSwapAlternativeAsset (SwapRequest.pair request) = Some altSlug /\
    topUpResolves this params altSlug w w' info /\
    step = xcmStepOf this params altSlug /\
    (let nativeSlug := _getChainNativeTokenSlug (topUpAltChain this altSlug) in
     fee = SwapFeeInfo.mk [SwapFeeComponent.mk NETWORK_FEE amount nativeSlug]
             nativeSlug [nativeSlug]) /\
    (finiteFee info ->
     amount = Some (inflateFee (RuntimeDispatchInfo.partialFee info))).
Proof.
  unfold getXcmStep, await, resolve. fold request.
  destruct (getTokenFreeBalance _ _ _ _ w) as [w1 [fromBal|]] eqn:Hfrom; [ | discriminate].
  destruct (Z.geb_spec (AmountData.value fromBal) (SwapRequest.fromAmount request));
    [discriminate | ]. cbn [negb].
  destruct (getSwapAlternativeAsset _) as [altSlug|] eqn:Halt; [ | discriminate].
  destruct (getTokenFreeBalance _ _ _ _ w1) as [w2 [altBal|]] eqn:Halt'; [ | discriminate].
  destruct (Z.gtb_spec (AmountData.value altBal) 0); [ | discriminate].
  destruct (getSubstrateApiIsReady _ _ w2) as [w3 [api|]] eqn:Hready; [ | discriminate].
  destruct (createXcmExtrinsic _ w3) as [w4 [transfer|]] eqn:Hcreate; [ | discriminate].
  destruct (paymentInfo _ _ w4) as [w5 [info|]] eqn:Hpay; [ | discriminate].
  intros [= <- <- <-].
  exists altSlug, info, (Some (inflateFee (RuntimeDispatchInfo.partialFee info))).
  split; [reflexivity | ]. split; [ | split; [ | split]; reflexivity].
  eapply (TopUpResolves this params altSlug w w5 info w1 w2 w3 w4 fromBal altBal api transfer);
    eassumption || lia.
Qed.

End PlanGeneration.

Section HydradxPlan.

Variables (this : @HydradxHandler World) (params : OptimalSwapPathParams.t).

Let base : SwapBaseHandler := swapBaseHandler this.
Let request : SwapRequest.t := OptimalSwapPathParams.request params.
Let fromAsset : _ChainAsset := topUpFromAsset base params.
Let query : Async AmountData.t :=
  getTokenFreeBalance (balanceService base) (SwapRequest.address request)
    (ChainAsset.originChain fromAsset) (ChainAsset.slug fromAsset).

(** X21. With a balance that covers the request, the plan is the
    placeholder followed, when a quote is selected, by the Swap step with
    [id = 1] and the fee of the quote: no transfer step, and one external
    call. *)
Theorem Hydradx_generateOptimalProcess_sufficient (w w1 : World)
    (balance : AmountData.t) :
  query w = (w1, Resolved balance) ->
  SwapRequest.fromAmount request <= AmountData.value balance ->
  Hydradx_generateOptimalProcess this params w
  = (w1, Resolved (OptimalSwapPath.mk (MOCK_SWAP_FEE :: submitFees params)
                     (DEFAULT_SWAP_FIRST_STEP :: submitSteps params 1))).
Proof.
  intros Hbal Hle.
  assert (Hxcm : getXcmStep base params w = (w1, Resolved None)).
  { unfold getXcmStep, await, resolve. fold request.
    unfold topUpFromAsset in fromAsset. fold request in fromAsset.
    fold fromAsset. fold query. rewrite Hbal.
    destruct (Z.geb_spec (AmountData.value balance) (SwapRequest.fromAmount request));
      [reflexivity | lia]. }
  unfold Hydradx_generateOptimalProcess. rewrite generateOptimalProcess_run.
  fold base. cbn [genStepLoop]. rewrite Hxcm.
  unfold getSubmitStep, submitSteps, submitFees, resolve.
  destruct (OptimalSwapPathParams.selectedQuote params); reflexivity.
Qed.

(** X22. When the transfer generator fails, at whichever of its external
    calls, the plan is the bare placeholder: the Swap step is not added,
    even with a quote selected, and [getSubmitStep] is not run. *)
Theorem Hydradx_generateOptimalProcess_xcm_failure (w w1 : World) :
  getXcmStep base params w = (w1, Rejected) ->
  Hydradx_generateOptimalProcess this params w = (w1, Resolved initialPath).
Proof.
  intros Hxcm. unfold Hydradx_generateOptimalProcess.
  rewrite generateOptimalProcess_run. fold base. cbn [genStepLoop].
  rewrite Hxcm. reflexivity.
Qed.

(** X23. Whatever the collaborators do, the plan is the placeholder followed
    by one of four tails: nothing, a transfer, a swap, or a transfer then a
    swap; the steps of the tail are numbered from 1. *)
Theorem Hydradx_generateOptimalProcess_shapes (w : World) :
  exists (w' : World) (path : OptimalSwapPath.t) (tail : list CommonStepDetail.t),
    Hydradx_generateOptimalProcess this params w = (w', Resolved path) /\
    OptimalSwapPath.steps path = DEFAULT_SWAP_FIRST_STEP :: tail /\
    In (map CommonStepDetail.type tail) [[]; [XCM]; [SWAP]; [XCM; SWAP]] /\
    map CommonStepDetail.id tail = seq 1 (length tail).
Proof.
  unfold Hydradx_generateOptimalProcess. fold base.
  destruct (getXcmStep base params w) as [w1 [[[step fee]|]|]] eqn:Hxcm.
  - assert (Hstep : BaseStepDetail.type step = XCM /\ BaseStepDetail.id step = None).
    { unfold getXcmStep, await, resolve in Hxcm.
      repeat match type of Hxcm with
             | context [match ?q ?x with _ => _ end] =>
                 destruct (q x) as [? [?|]]; [ | discriminate]
             | context [if ?b then _ else _] => destruct b; [ | discriminate]
             | context [match ?o with Some _ => _ | None => _ end] =>
                 destruct o; [ | discriminate]
             end.
      injection Hxcm as _ <- _. split; reflexivity. }
    destruct Hstep as [Hty Hid].
    destruct (OptimalSwapPathParams.selectedQuote params) as [quote|] eqn:Hquote;
      (eexists _, _, _;
       split; [rewrite generateOptimalProcess_run; cbn [genStepLoop]; rewrite Hxcm;
               unfold getSubmitStep, resolve; rewrite Hquote; cbn; reflexivity | ];
       cbn; split; [reflexivity | ]; cbn; rewrite Hty, Hid; split; [ | reflexivity]).
    + right. right. right. left. reflexivity.
    + right. left. reflexivity.
  - destruct (OptimalSwapPathParams.selectedQuote params) as [quote|] eqn:Hquote;
      (eexists _, _, _;
       split; [rewrite generateOptimalProcess_run; cbn [genStepLoop]; rewrite Hxcm;
               unfold getSubmitStep, resolve; rewrite Hquote; cbn; reflexivity | ];
       cbn; split; [reflexivity | ]; cbn; split; [ | reflexivity]).
    + right. right. left. reflexivity.
    + left. reflexivity.
  - eexists _, _, _.
    split; [rewrite generateOptimalProcess_run; cbn [genStepLoop]; rewrite Hxcm;
            cbn; reflexivity | ].
    cbn. split; [reflexivity | ]. cbn. split; [left; reflexivity | reflexivity].
Qed.


End HydradxPlan.

End HydradxProperties.

(** * Properties of the koni-base chain service *)

Section KoniChainServiceProperties.

Import KoniChainService.

Lemma objSet_In {V} (key : string) (value : V) (obj : list (string * V)) (k : string) (v : V) :
  In (k, v) (objSet key value obj) -> (k = key /\ v = value) \/ In (k, v) obj.
Proof.
  induction obj as [|[k0 v0] rest IH]; cbn.
  - intros [[= <- <-] | []]. auto.
  - destruct (String.eqb_spec k0 key) as [-> | Hne]; cbn.
    + intros [[= <- <-] | Hin]; auto.
    + intros [Heq | Hin]; [auto | ]. destruct (IH Hin); auto.
Qed.

Lemma objGet_objSet {V} (key : string) (value : V) (obj : list (string * V)) (k : string) :
  objGet k (objSet key value obj) = if String.eqb key k then Some value else objGet k obj.
Proof.
  induction obj as [|[k0 v0] rest IH]; cbn.
  - destruct (String.eqb key k); reflexivity.
  - destruct (String.eqb_spec k0 key) as [-> | Hne]; cbn.
    + destruct (String.eqb key k); reflexivity.
    + rewrite IH. destruct (String.eqb_spec k0 k) as [-> | Hne']; [ | reflexivity].
      destruct (String.eqb_spec key k); [congruence | reflexivity].
Qed.

Lemma objGet_None {V} (key : string) (obj : list (string * V)) :
  objGet key obj = None <-> ~ In key (objKeys obj).
Proof.
  induction obj as [|[k0 v0] rest IH]; cbn.
  - tauto.
  - destruct (String.eqb_spec k0 key) as [-> | Hne].
    + split; [discriminate | tauto].
    + rewrite IH. tauto.
Qed.

Lemma objKeys_objSet {V} (key : string) (value : V) (obj : list (string * V)) :
  objKeys (objSet key value obj) =
  match objGet key obj with
  | Some _ => objKeys obj
  | None => objKeys obj ++ [key]
  end.
Proof.
  unfold objKeys. induction obj as [|[k0 v0] rest IH]; cbn.
  - reflexivity.
  - destruct (String.eqb_spec k0 key) as [-> | Hne]; cbn; [reflexivity | ].
    rewrite IH. destruct (objGet key rest); reflexivity.
Qed.

Lemma wellKeyed_objSet (key : string) (state : KoniChainState.t)
    (states : list (string * KoniChainState.t)) :
  KoniChainState.slug state = key -> wellKeyed states -> wellKeyed (objSet key state states).
Proof.
  intros Hslug [Hnodup Hkeys]. split.
  - rewrite objKeys_objSet. destruct (objGet key states) eqn:Hget; [exact Hnodup | ].
    apply NoDup_app. split; [exact Hnodup | ]. split.
    + intros k Hin Hk. apply list_elem_of_singleton in Hk. subst k.
      apply objGet_None in Hget. apply Hget, list_elem_of_In, Hin.
    + apply NoDup_singleton.
  - intros k st Hin. destruct (objSet_In _ _ _ _ _ Hin) as [[-> ->] | Hold]; eauto.
Qed.

Lemma constructor_states (infos : list KoniChainInfo.t) :
  forall acc : list (string * KoniChainState.t),
    wellKeyed acc ->
    (forall key state, In (key, state) acc -> KoniChainState.active state = false) ->
    let states :=
      fold_left (fun states chainInfo =>
                   objSet (KoniChainInfo.slug chainInfo) (initialState chainInfo) states)
                infos acc in
    wellKeyed states /\
    (forall key state, In (key, state) states -> KoniChainState.active state = false) /\
    (forall key, objGet key states <> None <->
                 objGet key acc <> None \/
                 exists chainInfo, In chainInfo infos /\ KoniChainInfo.slug chainInfo = key).
Proof.
  induction infos as [|info rest IH]; intros acc Hkeyed Hinactive; cbn.
  - split; [exact Hkeyed | ]. split; [exact Hinactive | ].
    intros key. split; [auto | ]. intros [H | (info & [] & _)]. exact H.
  - destruct (IH (objSet (KoniChainInfo.slug info) (initialState info) acc))
      as (Hk & Hi & Hmem).
    + apply wellKeyed_objSet; [reflexivity | exact Hkeyed].
    + intros key st Hin. destruct (objSet_In _ _ _ _ _ Hin) as [[-> ->] | Hold]; eauto.
    + split; [exact Hk | ]. split; [exact Hi | ].
      intros key. rewrite Hmem, objGet_objSet.
      destruct (String.eqb_spec (KoniChainInfo.slug info) key) as [Heq | Hne].
      * split; [ | intros _; left; discriminate].
        intros _. right. exists info. auto.
      * split.
        -- intros [H | (ci & Hin & Hslug)]; [auto | right; exists ci; auto].
        -- intros [H | (ci & [<- | Hin] & Hslug)]; [auto | contradiction | ].
           right. exists ci. auto.
Qed.


Lemma activateAll_preserves (slugs : list string) :
  forall states : list (string * KoniChainState.t),
    let states' := (activateAll slugs states).1 in
    objKeys states' = objKeys states /\
    (forall key, objGet key states = None -> objGet key states' = None) /\
    (forall key state, objGet key states = Some state ->
       exists state', objGet key states' = Some state' /\
         KoniChainState.slug state' = KoniChainState.slug state /\
         KoniChainState.currentProvider state' = KoniChainState.currentProvider state /\
         KoniChainState.connectionStatus state' = KoniChainState.connectionStatus state /\
         (KoniChainState.active state = true -> KoniChainState.active state' = true)).
Proof.
  induction slugs as [|slug rest IH]; intros states; cbn.
  - split; [reflexivity | ]. split; [auto | ]. intros key state Hget. exists state.
    repeat split; auto.
  - destruct (objGet slug states) as [st|] eqn:Hslug; cbn.
    + destruct (IH (objSet slug (setActive st) states)) as (Hkeys & Hnone & Hsome).
      split; [ | split].
      * rewrite Hkeys, objKeys_objSet, Hslug. reflexivity.
      * intros key Hget. apply Hnone. rewrite objGet_objSet.
        destruct (String.eqb_spec slug key); [congruence | exact Hget].
      * intros key state Hget.
        destruct (String.eqb_spec slug key) as [-> | Hne].
        -- destruct (Hsome key (setActive st)) as (st' & Hget' & Hs & Hp & Hc & Ha).
           { rewrite objGet_objSet, String.eqb_refl. reflexivity. }
           assert (st = state) by congruence. subst st.
           exists st'. cbn in *. repeat split; auto.
        -- apply Hsome. rewrite objGet_objSet.
           destruct (String.eqb_spec slug key); [contradiction | exact Hget].
    + split; [reflexivity | ]. split; [auto | ]. intros key state Hget. exists state.
      repeat split; auto.
Qed.

(** X26. [initChainMap] only ever switches chains on: whether it completes
    or throws, the chain map and the list of chains with a state are
    unchanged, every state keeps its slug, provider and connection status,
    and no chain that was active becomes inactive. *)
Theorem initChainMap_preserves (_DEFAULT_NETWORKS : list string) (this : _DataMap) :
  let this' := (initChainMap _DEFAULT_NETWORKS this).1 in
  chainInfoMap this' = chainInfoMap this /\
  objKeys (chainStateMap this') = objKeys (chainStateMap this) /\
  (forall key state, objGet key (chainStateMap this) = Some state ->
     exists state', objGet key (chainStateMap this') = Some state' /\
       KoniChainState.slug state' = KoniChainState.slug state /\
       KoniChainState.currentProvider state' = KoniChainState.currentProvider state /\
       KoniChainState.connectionStatus state' = KoniChainState.connectionStatus state /\
       (KoniChainState.active state = true -> KoniChainState.active state' = true)).
Proof.
  unfold initChainMap.
  destruct (activateAll_preserves _DEFAULT_NETWORKS (chainStateMap this))
    as (Hkeys & _ & Hsome).
  destruct (activateAll _DEFAULT_NETWORKS (chainStateMap this)) as [states outcome].
  cbn in *. auto.
Qed.

Lemma activateAll_completes_iff (slugs : list string) :
  forall states : list (string * KoniChainState.t),
    (activateAll slugs states).2 = Resolved tt
    <-> forall slug, In slug slugs -> objGet slug states <> None.
Proof.
  induction slugs as [|slug rest IH]; intros states; cbn.
  - split; [intros _ ? [] | reflexivity].
  - destruct (objGet slug states) as [st|] eqn:Hslug.
    + rewrite IH. split.
      * intros Hall s [<- | Hin]; [congruence | ].
        specialize (Hall s Hin). rewrite objGet_objSet in Hall.
        destruct (String.eqb_spec slug s); [congruence | exact Hall].
      * intros Hall s Hin. rewrite objGet_objSet.
        destruct (String.eqb_spec slug s); [discriminate | auto].
    + cbn. split; [discriminate | ]. intros Hall. exfalso.
      exact (Hall slug (or_introl eq_refl) Hslug).
Qed.

(** X27. With plain keys for the states and for the default networks,
    [initChainMap] completes exactly when every default network has a
    state; otherwise it throws. *)
Theorem initChainMap_completes_iff (_DEFAULT_NETWORKS : list string) (this : _DataMap) :
  plainKeys (objKeys (chainStateMap this)) ->
  plainKeys _DEFAULT_NETWORKS ->
  ((initChainMap _DEFAULT_NETWORKS this).2 = Resolved tt
   <-> forall slug, In slug _DEFAULT_NETWORKS -> objGet slug (chainStateMap this) <> None).
Proof.
  intros _ _.
  rewrite <- activateAll_completes_iff. unfold initChainMap.
  destruct (activateAll _DEFAULT_NETWORKS (chainStateMap this)) as [states outcome].
  reflexivity.
Qed.

Lemma objSet_update (f : KoniChainState.t -> KoniChainState.t) (key : string)
    (states : list (string * KoniChainState.t)) (state : KoniChainState.t) :
  List.NoDup (objKeys states) ->
  objGet key states = Some state ->
  objSet key (f state) states
  = map (fun kv => if String.eqb kv.1 key then (kv.1, f kv.2) else kv) states.
Proof.
  unfold objKeys. induction states as [|[k0 v0] rest IH]; cbn; [discriminate | ].
  intros Hnodup Hget. apply List.NoDup_cons_iff in Hnodup as [Hnotin Hnodup].
  destruct (String.eqb_spec k0 key) as [-> | Hne].
  - injection Hget as ->. f_equal.
    clear IH Hnodup. induction rest as [|[k1 v1] rest IH]; cbn; [reflexivity | ].
    cbn in Hnotin. destruct (String.eqb_spec k1 key) as [-> | Hne]; [tauto | ].
    f_equal. apply IH. tauto.
  - f_equal. apply IH; assumption.
Qed.

Lemma activateAll_known (slugs : list string) :
  forall states : list (string * KoniChainState.t),
    List.NoDup (objKeys states) ->
    (forall slug, In slug slugs -> objGet slug states <> None) ->
    activateAll slugs states = (map (activated slugs) states, Resolved tt).
Proof.
  induction slugs as [|slug rest IH]; intros states Hnodup Hknown; cbn.
  - f_equal. clear. induction states as [|[k v] rest IHs]; cbn; [reflexivity | ].
    rewrite <- IHs. reflexivity.
  - destruct (objGet slug states) as [st|] eqn:Hslug;
      [ | exfalso; exact (Hknown slug (or_introl eq_refl) Hslug)].
    rewrite (objSet_update setActive slug states st Hnodup Hslug).
    rewrite IH.
    + f_equal. rewrite map_map. apply map_ext. intros [k v]. unfold activated. cbn.
      rewrite (String.eqb_sym k slug).
      destruct (String.eqb slug k); cbn; [ | reflexivity].
      destruct (inSlugs rest k); reflexivity.
    + unfold objKeys. rewrite map_map.
      erewrite map_ext; [exact Hnodup | ].
      intros [k v]. cbn. destruct (String.eqb k slug); reflexivity.
    + intros s Hin.
      rewrite <- (objSet_update setActive slug states st Hnodup Hslug), objGet_objSet.
      destruct (String.eqb slug s); [discriminate | ]. apply Hknown. right. exact Hin.
Qed.

Lemma getActiveChains_activated (slugs : list string)
    (states : list (string * KoniChainState.t)) :
  (forall key state, In (key, state) states ->
     KoniChainState.slug state = key /\ KoniChainState.active state = false) ->
  map KoniChainState.slug
    (List.filter KoniChainState.active (objValues (map (activated slugs) states)))
  = List.filter (inSlugs slugs) (objKeys states).
Proof.
  unfold objValues, objKeys.
  induction states as [|[k v] rest IH]; intros Hfresh; [reflexivity | ].
  destruct (Hfresh k v) as [Hslug Hactive]; [left; reflexivity | ].
  cbn. destruct (inSlugs slugs k); cbn; rewrite ?Hactive; cbn;
    rewrite IH by (intros key st Hin; apply Hfresh; right; exact Hin);
    rewrite ?Hslug; reflexivity.
Qed.

Lemma fresh_states (ChainInfoMap : list (string * KoniChainInfo.t)) :
  let states := chainStateMap (new_ChainService ChainInfoMap) in
  List.NoDup (objKeys states) /\
  (forall key state, In (key, state) states ->
     KoniChainState.slug state = key /\ KoniChainState.active state = false) /\
  (forall key, objGet key states <> None <->
               exists chainInfo, In chainInfo (objValues ChainInfoMap) /\
                                 KoniChainInfo.slug chainInfo = key).
Proof.
  cbn [new_ChainService chainStateMap].
  assert (Hempty : wellKeyed []) by (split; [constructor | intros ? ? []]).
  destruct (constructor_states (objValues ChainInfoMap) [] Hempty
              ltac:(intros ? ? []))
    as ([Hnodup Hkeys] & Hinactive & Hmem).
  split; [apply NoDup_ListNoDup, Hnodup | ]. split; [eauto | ].
  intros key. rewrite (Hmem key). cbn. split; [intros [H | H]; [contradiction | exact H] | auto].
Qed.

(** X28. On a freshly constructed service whose chains have plain slugs
    and whose default networks all occur in the chain map, [initChainMap]
    completes and the active chains are then exactly the default networks:
    each once, and in the order of the chain map rather than of
    [_DEFAULT_NETWORKS].  The keys of the chain map are plain too, so that
    the list enumerates it as the object does. *)
Theorem initChainMap_activates_defaults (ChainInfoMap : list (string * KoniChainInfo.t))
    (_DEFAULT_NETWORKS : list string) :
  plainKeys (objKeys ChainInfoMap) ->
  plainKeys (map KoniChainInfo.slug (objValues ChainInfoMap)) ->
  (forall slug, In slug _DEFAULT_NETWORKS ->
     exists chainInfo, In chainInfo (objValues ChainInfoMap) /\
                       KoniChainInfo.slug chainInfo = slug) ->
  let fresh := new_ChainService ChainInfoMap in
  (initChainMap _DEFAULT_NETWORKS fresh).2 = Resolved tt /\
  getActiveChains (initChainMap _DEFAULT_NETWORKS fresh).1
  = List.filter (inSlugs _DEFAULT_NETWORKS) (objKeys (chainStateMap fresh)).
Proof.
  intros _ _ Hknown fresh.
  destruct (fresh_states ChainInfoMap) as (Hnodup & Hfresh & Hmem). fold fresh in Hnodup, Hfresh, Hmem.
  unfold initChainMap, getActiveChains.
  rewrite (activateAll_known _DEFAULT_NETWORKS (chainStateMap fresh) Hnodup).
  - cbn. split; [reflexivity | ]. apply getActiveChains_activated, Hfresh.
  - intros slug Hin. apply Hmem, Hknown, Hin.
Qed.

Lemma activateAll_app (before more : list string) :
  forall states states' : list (string * KoniChainState.t),
    activateAll before states = (states', Resolved tt) ->
    activateAll (before ++ more) states = activateAll more states'.
Proof.
  induction before as [|slug rest IH]; intros states states'; cbn.
  - intros [= ->]. reflexivity.
  - destruct (objGet slug states); [apply IH | discriminate].
Qed.

(** X29. On a freshly constructed service whose chain map has plain keys
    and whose chains have plain slugs, a
    default network with a plain name that is not in the chain map makes
    [initChainMap] throw half-way: the default networks listed before it
    have been activated and stay active, the ones after it are not. *)
Theorem initChainMap_unknown_network (ChainInfoMap : list (string * KoniChainInfo.t))
    (before : list string) (unknown : string) (after : list string) :
  plainKeys (objKeys ChainInfoMap) ->
  plainKeys (map KoniChainInfo.slug (objValues ChainInfoMap)) ->
  plainKey unknown = true ->
  (forall slug, In slug before ->
     exists chainInfo, In chainInfo (objValues ChainInfoMap) /\
                       KoniChainInfo.slug chainInfo = slug) ->
  (forall chainInfo, In chainInfo (objValues ChainInfoMap) ->
                     KoniChainInfo.slug chainInfo <> unknown) ->
  let fresh := new_ChainService ChainInfoMap in
  (initChainMap (before ++ unknown :: after) fresh).2 = Rejected /\
  getActiveChains (initChainMap (before ++ unknown :: after) fresh).1
  = List.filter (inSlugs before) (objKeys (chainStateMap fresh)).
Proof.
  intros _ _ _ Hknown Hunknown fresh.
  destruct (fresh_states ChainInfoMap) as (Hnodup & Hfresh & Hmem). fold fresh in Hnodup, Hfresh, Hmem.
  assert (Hbefore : activateAll before (chainStateMap fresh)
                    = (map (activated before) (chainStateMap fresh), Resolved tt)).
  { apply activateAll_known; [exact Hnodup | ]. intros slug Hin. apply Hmem, Hknown, Hin. }
  assert (Hmissing : objGet unknown (map (activated before) (chainStateMap fresh)) = None).
  { destruct (activateAll_preserves before (chainStateMap fresh)) as (_ & Hnone & _).
    rewrite Hbefore in Hnone. cbn [fst] in Hnone. apply Hnone.
    destruct (objGet unknown (chainStateMap fresh)) eqn:Hget; [ | reflexivity].
    exfalso. assert (Hsome : objGet unknown (chainStateMap fresh) <> None) by congruence.
    apply Hmem in Hsome as (ci & Hin & Hslug). exact (Hunknown ci Hin Hslug). }
  unfold initChainMap, getActiveChains.
  rewrite (activateAll_app before (unknown :: after) _ _ Hbefore).
  cbn [activateAll]. rewrite Hmissing. cbn.
  split; [reflexivity | ]. apply getActiveChains_activated, Hfresh.
Qed.

End KoniChainServiceProperties.

(** * The further properties on the concrete world *)



(** The request is for 10 only, but the balance equals the minimum swap. *)
Lemma validateSwapStep_below_min_swap_witness :
  exists message : string,
    validateSwapStep (env := testEnv None) (walletHandler 1000000 5000)
      (validationOf (minSwapQuote 10 1000000) None) true world0
    = (afterSwapQuery,
       Resolved [new_TransactionError_msg (SwapTx SWAP_NOT_ENOUGH_BALANCE) message]).
Proof.
  eexists.
  apply (validateSwapStep_below_min_swap (env := testEnv None)
           (walletHandler 1000000 5000) (validationOf (minSwapQuote 10 1000000) None)
           true (minSwapQuote 10 1000000) eq_refl
           world0 afterSwapQuery (dotBalance 1000000) 1000000).
  - reflexivity.
  - reflexivity.
  - reflexivity.
  - vm_compute. discriminate.
Defined.



Lemma validateSwapStep_balance_failure_witness :
  validateSwapStep (env := testEnv None) downHandler
    (validationOf (liveQuote 999999) None) true world0
  = (afterSwapQuery, Rejected).
Proof.
  apply (validateSwapStep_balance_failure (env := testEnv None) downHandler
           (validationOf (liveQuote 999999) None) true (liveQuote 999999) eq_refl
           world0 afterSwapQuery).
  - reflexivity.
  - reflexivity.
Defined.

Lemma requestSupported_example (balances : string -> option Z) :
  requestSupported (env := testEnv None) (readyHandler balances) smallRequest.
Proof. repeat split; discriminate. Defined.

Lemma validateSwapRequest_balance_failure_witness :
  validateSwapRequest (env := testEnv None) (readyHandler noBalances) smallRequest world0
  = (afterSwapQuery, Resolved (earlyError UNKNOWN)).
Proof.
  apply (validateSwapRequest_balance_failure (env := testEnv None)
           (readyHandler noBalances) smallRequest world0 afterSwapQuery).
  - apply requestSupported_example.
  - reflexivity.
Defined.

Lemma validateSwapRequest_passes_iff_witness :
  exists validation : SwapEarlyValidation.t,
    validateSwapRequest (env := testEnv None) (readyHandler (dotBalances 1000000 5000))
      smallRequest world0
    = (afterSwapQuery, Resolved validation) /\
    (SwapEarlyValidation.error validation = None <-> 0 < 1000 < 1000000 - 0) /\
    (forall metadata, SwapEarlyValidation.metadata validation = Some metadata ->
       AmountData.value (HydradxPreValidationMetadata.maxSwap metadata) = 1000000 - 0).
Proof.
  destruct (validateSwapRequest_passes_iff (env := testEnv None)
              (readyHandler (dotBalances 1000000 5000)) smallRequest
              world0 afterSwapQuery (dotBalance 1000000)
              (requestSupported_example _) eq_refl)
    as (validation & Hrun & Hiff & _ & _ & Hmax).
  exists validation. split; [exact Hrun | ]. split; [exact Hiff | exact Hmax].
Defined.

Lemma getSwapQuote_example :
  getSwapQuote (env := testEnv None) (readyHandler (dotBalances 1000000 5000))
    smallRequest world0
  = (afterSwapQuery, Resolved (inl smallQuote)).
Proof. reflexivity. Defined.

Lemma getSwapQuote_issued_witness :
  SwapQuote.pair smallQuote = dotToHdx /\
  SwapQuote.fromAmount smallQuote = 1000 /\
  SwapQuote.aliveUntil smallQuote = 1000 + 90000.
Proof.
  destruct (getSwapQuote_issued (env := testEnv None)
              (readyHandler (dotBalances 1000000 5000)) smallRequest
              world0 afterSwapQuery smallQuote getSwapQuote_example)
    as (_ & _ & Hpair & Hamount & Halive & _).
  split; [exact Hpair | ]. split; [exact Hamount | exact Halive].
Defined.

Lemma issued_quote_expiry_witness :
  validateSwapStep (env := testEnv None) (walletHandler 1000000 5000)
    (validationOf smallQuote None) true lateWorld
  = (lateWorld, Resolved [new_TransactionError (SwapTx QUOTE_TIMEOUT)]) /\
  ((exists (wv' : TestWorld) (errs : list TransactionError.t),
       validateSwapStep (env := testEnv None) (walletHandler 1000000 5000)
         (validationOf smallQuote None) true lateWorld = (wv', Resolved errs) /\
       hasError (SwapTx QUOTE_TIMEOUT) errs)
   <-> 1000 + 90000 <= 91000).
Proof.
  split; [reflexivity | ].
  exact (issued_quote_expiry (env := testEnv None)
           (readyHandler (dotBalances 1000000 5000)) smallRequest
           world0 afterSwapQuery smallQuote
           (walletHandler 1000000 5000) (validationOf smallQuote None) true lateWorld
           getSwapQuote_example eq_refl).
Defined.

Lemma early_validation_covers_allowance_witness :
  validateSwapStep (env := testEnv None) (walletHandler 1000000 5000)
    (validationOf smallQuote None) true world0
  = (afterSwapQuery, Resolved []) /\
  ~ hasError (SwapTx SWAP_EXCEED_ALLOWANCE) [].
Proof.
  split; [reflexivity | ].
  apply (early_validation_covers_allowance (env := testEnv None)
           (readyHandler (dotBalances 1000000 5000)) smallRequest
           world0 afterSwapQuery
           (SwapEarlyValidation.mk None
              (Some (HydradxPreValidationMetadata.mk
                       (ChainInfo.mk "hydradx_main" "hydradx_main")
                       (AmountData.mk 1000000 0 "DOT"))))
           (validationOf smallQuote None) true smallQuote world0 afterSwapQuery []);
    try reflexivity.
  intros before after wa wb [= _ <-] [= _ <-]. reflexivity.
Defined.

Lemma init_example :
  init (env := testEnv None) (testHandler (dotBalances 1000000 5000)) world0
  = (logCall "isReady" world0, Resolved initialised).
Proof. reflexivity. Defined.

Lemma init_ready_witness :
  isReady (testHandler (dotBalances 1000000 5000)) = false /\
  isReady initialised = true /\
  tradeRouter initialised <> None /\
  swapBaseHandler initialised = swapBaseHandler (testHandler (dotBalances 1000000 5000)).
Proof.
  split; [reflexivity | ].
  destruct (init_ready (env := testEnv None) (testHandler (dotBalances 1000000 5000))
              world0 (logCall "isReady" world0) initialised init_example)
    as (Hready & Hrouter & Hbase & _).
  split; [exact Hready | ]. split; [exact Hrouter | exact Hbase].
Defined.

Lemma init_then_getSwapQuote_witness :
  exists (wq' : TestWorld) (validation : SwapEarlyValidation.t),
    validateSwapRequest (env := testEnv None) initialised smallRequest world0
    = (wq', Resolved validation) /\
    getSwapQuote (env := testEnv None) initialised smallRequest world0
    = (wq', Resolved (quoteAnswer (env := testEnv None) initialised smallRequest
                        validation (now wq'))).
Proof.
  exact (init_then_getSwapQuote (env := testEnv None)
           (testHandler (dotBalances 1000000 5000)) world0 (logCall "isReady" world0)
           initialised smallRequest world0 init_example).
Defined.

(** The request equals the balance: no transfer step. *)
Lemma getXcmStep_no_step_witness :
  getXcmStep (env := testEnv (Some 8333)) (walletHandler 1000000 2000000)
    sufficientPlan world0
  = (afterSwapQuery, Resolved None).
Proof.
  apply (getXcmStep_no_step (env := testEnv (Some 8333)) (walletHandler 1000000 2000000)
           sufficientPlan world0 afterSwapQuery (dotBalance 1000000)).
  - reflexivity.
  - left. vm_compute. discriminate.
Defined.

(** The first example of the specification: the query reports a partial
    fee of 8,333, which the step carries inflated to 10,000. *)
Lemma getXcmStep_step_inversion_witness :
  exists (altSlug : string) (info : RuntimeDispatchInfo.t) (amount : option Amount),
    getSwapAlternativeAsset (SwapEnv := testEnv (Some 8333)) dotToHdx = Some altSlug /\
    topUpResolves (env := testEnv (Some 8333)) (walletHandler 1000000 2000000)
      (testPlan 1500000) altSlug world0 afterTopUp info /\
    topUpStep = xcmStepOf (walletHandler 1000000 2000000) (testPlan 1500000) altSlug /\
    xcmFeeInfo 10000
    = SwapFeeInfo.mk [SwapFeeComponent.mk NETWORK_FEE amount "polkadot-NATIVE"]
        "polkadot-NATIVE" ["polkadot-NATIVE"] /\
    RuntimeDispatchInfo.partialFee info = 8333 /\
    amount = Some (inflateFee 8333).
Proof.
  destruct (getXcmStep_step_inversion (env := testEnv (Some 8333))
              (walletHandler 1000000 2000000) (testPlan 1500000) world0 afterTopUp
              topUpStep (xcmFeeInfo 10000) eq_refl)
    as (altSlug & info & amount & Halt & Htop & Hstep & Hfee & Hamount).
  assert (Hinfo : info = RuntimeDispatchInfo.mk 8333).
  { destruct Htop as [w1 w2 w3 w4 fromBal altBal api transfer ? ? ? _ _ _ _ _ _ Hpay].
    cbn in Hpay. congruence. }
  assert (Hslug : altSlug = "polkadot-NATIVE-DOT") by (cbn in Halt; congruence).
  subst info altSlug.
  exists "polkadot-NATIVE-DOT", (RuntimeDispatchInfo.mk 8333), amount.
  split; [exact Halt | ]. split; [exact Htop | ]. split; [exact Hstep | ].
  split; [exact Hfee | ]. split; [reflexivity | ].
  apply Hamount. unfold finiteFee. vm_compute. reflexivity.
Defined.

Lemma Hydradx_generateOptimalProcess_sufficient_witness :
  exists path : OptimalSwapPath.t,
    Hydradx_generateOptimalProcess (env := testEnv (Some 8333))
      (testHandler (dotBalances 1000000 2000000)) sufficientPlan world0
    = (afterSwapQuery, Resolved path) /\
    map CommonStepDetail.type (OptimalSwapPath.steps path) = [DEFAULT; SWAP] /\
    map CommonStepDetail.id (OptimalSwapPath.steps path) = [0; 1]%nat.
Proof.
  eexists. split.
  - apply (Hydradx_generateOptimalProcess_sufficient (env := testEnv (Some 8333))
             (testHandler (dotBalances 1000000 2000000)) sufficientPlan
             world0 afterSwapQuery (dotBalance 1000000)).
    + reflexivity.
    + vm_compute. discriminate.
  - split; reflexivity.
Defined.

(** The fee query is rejected: the plan keeps only the placeholder, although
    a quote is selected. *)
Lemma Hydradx_generateOptimalProcess_xcm_failure_witness :
  OptimalSwapPathParams.selectedQuote (testPlan 1500000) <> None /\
  Hydradx_generateOptimalProcess (env := testEnv None)
    (testHandler (dotBalances 1000000 2000000)) (testPlan 1500000) world0
  = (afterTopUp, Resolved (initialPath (env := testEnv None))).
Proof.
  split; [discriminate | ].
  apply (Hydradx_generateOptimalProcess_xcm_failure (env := testEnv None)
           (testHandler (dotBalances 1000000 2000000)) (testPlan 1500000)
           world0 afterTopUp).
  reflexivity.
Defined.


Lemma koniChainMap_known (slug : string) :
  In slug ["kusama"; "polkadot"] ->
  exists chainInfo, In chainInfo (KoniChainService.objValues koniChainMap) /\
                    KoniChainInfo.slug chainInfo = slug.
Proof.
  intros [<- | [<- | []]];
    [exists (koniChain "kusama") | exists (koniChain "polkadot")];
    (split; [cbn; auto | reflexivity]).
Defined.

(** Every default network of the list has a state on the fresh service, so
    the call completes. *)
Lemma initChainMap_completes_iff_witness :
  (KoniChainService.initChainMap ["kusama"; "polkadot"]
     (KoniChainService.new_ChainService koniChainMap)).2 = Resolved tt.
Proof.
  apply (initChainMap_completes_iff ["kusama"; "polkadot"]
           (KoniChainService.new_ChainService koniChainMap) eq_refl eq_refl).
  intros slug [<- | [<- | []]]; discriminate.
Defined.

(** Defaults listed as kusama, polkadot; the chain map lists polkadot first. *)
Lemma initChainMap_activates_defaults_witness :
  KoniChainService.getActiveChains
    (KoniChainService.initChainMap ["kusama"; "polkadot"]
       (KoniChainService.new_ChainService koniChainMap)).1
  = ["polkadot"; "kusama"].
Proof.
  exact (proj2 (initChainMap_activates_defaults koniChainMap ["kusama"; "polkadot"]
                  eq_refl eq_refl koniChainMap_known)).
Defined.

(** [moonbeam] is not in the chain map: kusama was already activated when
    the call throws, polkadot never is. *)
Lemma initChainMap_unknown_network_witness :
  (KoniChainService.initChainMap (["kusama"] ++ "moonbeam" :: ["polkadot"])
     (KoniChainService.new_ChainService koniChainMap)).2 = Rejected /\
  KoniChainService.getActiveChains
    (KoniChainService.initChainMap (["kusama"] ++ "moonbeam" :: ["polkadot"])
       (KoniChainService.new_ChainService koniChainMap)).1
  = ["kusama"].
Proof.
  apply (initChainMap_unknown_network koniChainMap ["kusama"] "moonbeam" ["polkadot"]
           eq_refl eq_refl eq_refl).
  - intros slug [<- | []]. exists (koniChain "kusama"). split; [cbn; auto | reflexivity].
  - intros chainInfo [<- | [<- | [<- | []]]]; discriminate.
Defined.
